(** * q2-bbduk: the BBDuk command builder, the two drivers and the
      plugin registration, embedded from [q2_bbduk/_trim.py] and
      [q2_bbduk/plugin_setup.py]. *)

From Stdlib Require Import ZArith List String Ascii Bool Lia DecimalString.
Import ListNotations.

Local Open Scope string_scope.
Local Open Scope list_scope.
Local Open Scope Z_scope.

Set Implicit Arguments.

(** ** Python values *)

(** Python floats are only formatted and compared with integer literals by
    this program; their arithmetic is left to an interface. *)
Class PyFloat : Type := {
  float : Type;
  (** [format(x)], the text an f-string substitutes for a float. *)
  float_repr : float -> string;
  (** The order between a float and an int; [None] when the float is a NaN,
      for which every ordered comparison is false. *)
  float_compare_int : float -> Z -> option comparison;
  (** [float(n)]; the literal [6.0] is [float_of_int 6]. *)
  float_of_int : Z -> float
}.

Module Py.

(** Exceptions the program can see. *)
Inductive exn : Type :=
| TypeError
| CalledProcessError (returncode : Z) (cmd : list string)
| OSError.

Inductive result (A : Type) : Type :=
| Ok (a : A)
| Raise (e : exn).

Arguments Ok {A} a.
Arguments Raise {A} e.

Definition bind {A B : Type} (m : result A) (f : A -> result B) : result B :=
  match m with
  | Ok a => f a
  | Raise e => Raise e
  end.

Section Values.
Context {FM : PyFloat}.

(** The values that reach the builder's parameters. *)
Inductive pyval : Type :=
| PNone
| PBool (b : bool)
| PInt (z : Z)
| PFloat (f : float)
| PStr (s : string).

(** [str(n)] for an int. *)
Definition str_int (z : Z) : string := NilZero.string_of_int (Z.to_int z).

(** What an f-string substitutes for [{v}]. *)
Definition format (v : pyval) : string :=
  match v with
  | PNone => "None"
  | PBool true => "True"
  | PBool false => "False"
  | PInt z => str_int z
  | PFloat f => float_repr f
  | PStr s => s
  end.

(** [bool(v)], the test an [if v:] performs. *)
Definition truthy (v : pyval) : bool :=
  match v with
  | PNone => false
  | PBool b => b
  | PInt z => negb (z =? 0)
  | PFloat f =>
      match float_compare_int f 0 with
      | Some Eq => false
      | _ => true
      end
  | PStr s => negb (s =? "")%string
  end.

Definition is_not_None (v : pyval) : bool :=
  match v with
  | PNone => false
  | _ => true
  end.

(** [v > n] for an int literal [n]: defined on numbers ([bool] is a subclass
    of [int]), a [TypeError] on [None] and on strings. *)
Definition gt (v : pyval) (n : Z) : result bool :=
  match v with
  | PBool b => Ok (n <? (if b then 1 else 0))
  | PInt z => Ok (n <? z)
  | PFloat f =>
      Ok (match float_compare_int f n with
          | Some Gt => true
          | _ => false
          end)
  | PNone | PStr _ => Raise TypeError
  end.

End Values.

End Py.

Import Py.

Declare Scope py_scope.
Notation "x <- m ;; k" := (bind m (fun x => k))
  (at level 61, m at next level, right associativity) : py_scope.
Local Open Scope py_scope.

(** String concatenation, kept apart from list append. *)
Infix "+++" := String.append (at level 60, right associativity).

(** A command line: the argument vector handed to [subprocess.run]. *)
Definition cmdline : Type := list string.

(** ** The operating system, as the drivers use it *)

(** How a [subprocess.run(cmd, check=True)] ends: the child ran and exited
    with a status, or it could not be started. *)
Inductive completed : Type :=
| Exited (returncode : Z)
| LaunchFailed.

(** What the program does to the outside. *)
Inductive event : Type :=
| Stdout (text : string)
| Subprocess (cmd : cmdline).

Class OS : Type := {
  World : Type;
  (** Start [cmd], wait for it. *)
  subprocess_run : cmdline -> World -> completed * World;
  (** [CasavaOneEightSingleLanePerSampleDirFmt()]: a fresh, empty output
      directory; the string is its [path]. *)
  new_dirfmt : World -> string * World;
  (** Entering and leaving [tempfile.TemporaryDirectory()]. *)
  mkdtemp : World -> string * World;
  rmtree : string -> World -> World;
  (** [str(Path(d) / name)]. *)
  path_join : string -> string -> string
}.

(** ** The framework's types, as [plugin_setup.py] writes them *)

(** The framework's primitive types and predicates, as far as the
    registration uses them.  [Range(start, end)] includes its start and
    excludes its end unless told otherwise. *)
Inductive primitive : Type := Int | Str | Float | Bool | Threads.

Inductive predicate : Type :=
| Range (start stop : option Z) (inclusive_start inclusive_end : bool)
| Choices (choices : list string).

Inductive semantic_type : Type :=
| Plain (t : primitive)
| Refined (t : primitive) (pred : predicate).

Notation "t %% pred" := (Refined t pred) (at level 40).

(** ** [_trim.py]: defaults and the command builder *)

Section Bbduk.
Context {FM : PyFloat} {os : OS}.

(** The module-level dictionary [_trim_defaults], a field per key. *)
Record trim_defaults : Type := {
  d_threads : pyval;
  d_k : pyval;
  d_ktrim : pyval;
  d_mink : pyval;
  d_qtrim : pyval;
  d_trimq : pyval;
  d_minlength : pyval;
  d_tpe : pyval;
  d_tbo : pyval;
  d_minoverlap : pyval;
  d_ref : pyval;
  d_literal : pyval;
  d_forcetrimleft : pyval;
  d_forcetrimright : pyval;
  d_kmask : pyval;
  d_overwrite : pyval
}.

Definition _trim_defaults : trim_defaults := {|
  d_threads := PInt 1;
  d_k := PInt 27;
  d_ktrim := PStr "f";
  d_mink := PNone;
  d_qtrim := PStr "f";
  d_trimq := PFloat (float_of_int 6);
  d_minlength := PInt 10;
  d_tpe := PBool false;
  d_tbo := PBool false;
  d_minoverlap := PInt 14;
  d_ref := PNone;
  d_literal := PNone;
  d_forcetrimleft := PInt 0;
  d_forcetrimright := PInt 0;
  d_kmask := PNone;
  d_overwrite := PBool true
|}.

(** The keyword arguments of [_build_bbduk_cmd], in the order of its
    signature.  Python does not check annotations, so every one is a
    [pyval]. *)
Record bbduk_args : Type := {
  in1 : pyval;
  out1 : pyval;
  in2 : pyval;
  out2 : pyval;
  threads : pyval;
  k : pyval;
  ktrim : pyval;
  mink : pyval;
  qtrim : pyval;
  trimq : pyval;
  minlength : pyval;
  tpe : pyval;
  tbo : pyval;
  minoverlap : pyval;
  ref : pyval;
  literal : pyval;
  forcetrimleft : pyval;
  forcetrimright : pyval;
  kmask : pyval;
  overwrite : pyval;
  stats_fp : pyval
}.

(** [x and x > 0], as the [if] that follows it reads it: the comparison is
    evaluated only when [x] is truthy. *)
Definition and_gt0 (x : pyval) : result bool :=
  if truthy x then gt x 0 else Ok false.

(** [x is not None and x > 0]. *)
Definition not_None_and_gt0 (x : pyval) : result bool :=
  if is_not_None x then gt x 0 else Ok false.

Definition _build_bbduk_cmd (a : bbduk_args) : result cmdline :=
  let cmd :=
    [ "bbduk.sh";
      "in=" +++ format (in1 a);
      "out=" +++ format (out1 a);
      "k=" +++ format (k a);
      "ktrim=" +++ format (ktrim a);
      "qtrim=" +++ format (qtrim a);
      "trimq=" +++ format (trimq a);
      "minlength=" +++ format (minlength a);
      "threads=" +++ format (threads a);
      "overwrite=" +++ (if truthy (overwrite a) then "t" else "f");
      "ziplevel=2";
      "ordered=f" ] in
  c <- not_None_and_gt0 (mink a) ;;
  let cmd := if c then cmd ++ ["mink=" +++ format (mink a)] else cmd in
  let cmd :=
    if is_not_None (in2 a) && is_not_None (out2 a) then
      let cmd := cmd ++ ["in2=" +++ format (in2 a); "out2=" +++ format (out2 a)] in
      let cmd := if truthy (tpe a) then cmd ++ ["tpe=t"] else cmd in
      if truthy (tbo a)
      then cmd ++ ["tbo=t"; "minoverlap=" +++ format (minoverlap a)]
      else cmd
    else cmd in
  let cmd := if truthy (ref a) then cmd ++ ["ref=" +++ format (ref a)] else cmd in
  let cmd :=
    if truthy (literal a) then cmd ++ ["literal=" +++ format (literal a)]
    else cmd in
  c <- and_gt0 (forcetrimleft a) ;;
  let cmd :=
    if c then cmd ++ ["forcetrimleft=" +++ format (forcetrimleft a)] else cmd in
  c <- and_gt0 (forcetrimright a) ;;
  let cmd :=
    if c then cmd ++ ["forcetrimright=" +++ format (forcetrimright a)]
    else cmd in
  let cmd :=
    if truthy (kmask a) then cmd ++ ["kmask=" +++ format (kmask a)] else cmd in
  let cmd :=
    if truthy (stats_fp a) then cmd ++ ["stats=" +++ format (stats_fp a)]
    else cmd in
  Ok cmd.

Definition newline : string := String (ascii_of_nat 10) EmptyString.

(** [run_commands(cmds)]: the trace of what happened, the world left
    behind, and how the call ended. *)
Fixpoint run_commands (cmds : list cmdline) (w : World)
  : list event * World * result unit :=
  match cmds with
  | [] => ([], w, Ok tt)
  | cmd :: rest =>
      let printed :=
        [ Stdout (newline +++ "Command:" +++ " ");
          Stdout (String.concat " " cmd +++ newline +++ newline) ] in
      match subprocess_run cmd w with
      | (Exited rc, w1) =>
          if rc =? 0 then
            let '(tr, w2, r) := run_commands rest w1 in
            (printed ++ Subprocess cmd :: tr, w2, r)
          else (printed ++ [Subprocess cmd], w1,
                Raise (CalledProcessError rc cmd))
      | (LaunchFailed, w1) => (printed ++ [Subprocess cmd], w1, Raise OSError)
      end
  end.

Definition is_sep (c : ascii) : bool := (c =? "/")%char.

Fixpoint has_sep (p : string) : bool :=
  match p with
  | EmptyString => false
  | String c rest => is_sep c || has_sep rest
  end.

(** [os.path.basename(p)]: what follows the last ["/"] of [p]. *)
Fixpoint basename (p : string) : string :=
  match p with
  | EmptyString => EmptyString
  | String c rest =>
      if has_sep rest then basename rest
      else if is_sep c then rest else p
  end.

(** ** Base names *)






(** ** The drivers *)

(** The keyword parameters of [trim_single]. *)
Record single_params : Type := {
  s_k : pyval;
  s_ktrim : pyval;
  s_mink : pyval;
  s_qtrim : pyval;
  s_trimq : pyval;
  s_minlength : pyval;
  s_ref : pyval;
  s_literal : pyval;
  s_forcetrimleft : pyval;
  s_forcetrimright : pyval;
  s_kmask : pyval;
  s_threads : pyval
}.

(** The keyword parameters of [trim_paired]. *)
Record paired_params : Type := {
  p_k : pyval;
  p_ktrim : pyval;
  p_mink : pyval;
  p_qtrim : pyval;
  p_trimq : pyval;
  p_minlength : pyval;
  p_tpe : pyval;
  p_tbo : pyval;
  p_minoverlap : pyval;
  p_ref : pyval;
  p_literal : pyval;
  p_forcetrimleft : pyval;
  p_forcetrimright : pyval;
  p_kmask : pyval;
  p_threads : pyval
}.

(** The values the signatures give to parameters a caller leaves out. *)
Definition single_defaults : single_params := {|
  s_k := d_k _trim_defaults;
  s_ktrim := d_ktrim _trim_defaults;
  s_mink := d_mink _trim_defaults;
  s_qtrim := d_qtrim _trim_defaults;
  s_trimq := d_trimq _trim_defaults;
  s_minlength := d_minlength _trim_defaults;
  s_ref := d_ref _trim_defaults;
  s_literal := d_literal _trim_defaults;
  s_forcetrimleft := d_forcetrimleft _trim_defaults;
  s_forcetrimright := d_forcetrimright _trim_defaults;
  s_kmask := d_kmask _trim_defaults;
  s_threads := d_threads _trim_defaults
|}.

Definition paired_defaults : paired_params := {|
  p_k := d_k _trim_defaults;
  p_ktrim := d_ktrim _trim_defaults;
  p_mink := d_mink _trim_defaults;
  p_qtrim := d_qtrim _trim_defaults;
  p_trimq := d_trimq _trim_defaults;
  p_minlength := d_minlength _trim_defaults;
  p_tpe := d_tpe _trim_defaults;
  p_tbo := d_tbo _trim_defaults;
  p_minoverlap := d_minoverlap _trim_defaults;
  p_ref := d_ref _trim_defaults;
  p_literal := d_literal _trim_defaults;
  p_forcetrimleft := d_forcetrimleft _trim_defaults;
  p_forcetrimright := d_forcetrimright _trim_defaults;
  p_kmask := d_kmask _trim_defaults;
  p_threads := d_threads _trim_defaults
|}.

(** A row of [df.itertuples()]: the sample id (the index) and the path of
    its reads; two paths for a paired-end manifest. *)
Definition single_row : Type := (string * string)%type.
Definition paired_row : Type := (string * string * string)%type.

(** The keyword arguments [trim_single]'s loop gives the builder for one
    row; what the driver does not pass keeps the builder's default. *)
Definition single_args (p : single_params) (out_path td : string)
  (row : single_row) : bbduk_args :=
  let '(_, fwd) := row in
  let out1 := path_join out_path (basename fwd) in
  let stats := path_join td (basename fwd +++ ".bbduk.stats.txt") in
  {| in1 := PStr fwd; out1 := PStr out1;
     in2 := PNone; out2 := PNone;
     threads := s_threads p; k := s_k p; ktrim := s_ktrim p;
     mink := s_mink p; qtrim := s_qtrim p; trimq := s_trimq p;
     minlength := s_minlength p;
     tpe := d_tpe _trim_defaults; tbo := d_tbo _trim_defaults;
     minoverlap := d_minoverlap _trim_defaults;
     ref := s_ref p; literal := s_literal p;
     forcetrimleft := s_forcetrimleft p;
     forcetrimright := s_forcetrimright p;
     kmask := s_kmask p;
     overwrite := d_overwrite _trim_defaults;
     stats_fp := PStr stats |}.

(** The body of [trim_single]'s loop for one row. *)
Definition single_cmd (p : single_params) (out_path td : string)
  (row : single_row) : result cmdline :=
  _build_bbduk_cmd (single_args p out_path td row).

(** The keyword arguments [trim_paired]'s loop gives the builder for one
    row. *)
Definition paired_args (p : paired_params) (out_path td : string)
  (row : paired_row) : bbduk_args :=
  let '(_, fwd, rev) := row in
  let out1 := path_join out_path (basename fwd) in
  let out2 := path_join out_path (basename rev) in
  let stats := path_join td (basename fwd +++ ".bbduk.stats.txt") in
  {| in1 := PStr fwd; out1 := PStr out1;
     in2 := PStr rev; out2 := PStr out2;
     threads := p_threads p; k := p_k p; ktrim := p_ktrim p;
     mink := p_mink p; qtrim := p_qtrim p; trimq := p_trimq p;
     minlength := p_minlength p;
     tpe := p_tpe p; tbo := p_tbo p; minoverlap := p_minoverlap p;
     ref := p_ref p; literal := p_literal p;
     forcetrimleft := p_forcetrimleft p;
     forcetrimright := p_forcetrimright p;
     kmask := p_kmask p;
     overwrite := d_overwrite _trim_defaults;
     stats_fp := PStr stats |}.

(** The body of [trim_paired]'s loop for one row. *)
Definition paired_cmd (p : paired_params) (out_path td : string)
  (row : paired_row) : result cmdline :=
  _build_bbduk_cmd (paired_args p out_path td row).

(** The loop [for row in df.itertuples(): cmds.append(...)]: the commands in
    row order, or the first exception a row raises. *)
Fixpoint build_all {R : Type} (f : R -> result cmdline) (rows : list R)
  : result (list cmdline) :=
  match rows with
  | [] => Ok []
  | row :: rest =>
      cmd <- f row ;;
      cmds <- build_all f rest ;;
      Ok (cmd :: cmds)
  end.

(** What both drivers do around their loop: create the output directory,
    enter the temporary directory, build every command, run them, leave the
    temporary directory (also when an exception passes through), and return
    the output directory. *)
Definition drive {R : Type} (f : string -> string -> R -> result cmdline)
  (manifest : list R) (w : World) : list event * World * result string :=
  let '(out_path, w) := new_dirfmt w in
  let '(td, w) := mkdtemp w in
  let '(tr, w, r) :=
    match build_all (f out_path td) manifest with
    | Ok cmds => run_commands cmds w
    | Raise e => ([], w, Raise e)
    end in
  (tr, rmtree td w, _ <- r ;; Ok out_path).

Definition trim_single (demultiplexed_sequences : list single_row)
  (p : single_params) : World -> list event * World * result string :=
  drive (single_cmd p) demultiplexed_sequences.

Definition trim_paired (demultiplexed_sequences : list paired_row)
  (p : paired_params) : World -> list event * World * result string :=
  drive (paired_cmd p) demultiplexed_sequences.

(** ** [plugin_setup.py]: the registration of the two methods *)

(** The order between a number and an int bound; nothing for other values
    and for a NaN. *)
Definition compare_int (v : pyval) (n : Z) : option comparison :=
  match v with
  | PInt z => Some (z ?= n)
  | PFloat f => float_compare_int f n
  | _ => None
  end.

Definition lt (v : pyval) (n : Z) : bool :=
  match compare_int v n with Some Lt => true | _ => false end.
Definition le (v : pyval) (n : Z) : bool :=
  match compare_int v n with Some Lt | Some Eq => true | _ => false end.
Definition ge (v : pyval) (n : Z) : bool :=
  match compare_int v n with Some Gt | Some Eq => true | _ => false end.
Definition gt_int (v : pyval) (n : Z) : bool :=
  match compare_int v n with Some Gt => true | _ => false end.

(** Modelled from the spec: the framework's membership test for a
    predicate, which the repository declares and does not implement.  A
    range holds the numbers that are at least its start (greater, when the
    start is excluded) and less than its end (at most, when the end is
    included), so a value without an order to the bound, a NaN, is outside;
    a choice list restricts a string to the values it lists. *)
Definition satisfies (pred : predicate) (v : pyval) : bool :=
  match pred with
  | Range start stop inclusive_start inclusive_end =>
      match start with
      | Some s => if inclusive_start then ge v s else gt_int v s
      | None => true
      end
      &&
      match stop with
      | Some e => if inclusive_end then le v e else lt v e
      | None => true
      end
  | Choices choices =>
      match v with
      | PStr s => existsb (String.eqb s) choices
      | _ => false
      end
  end.

(** Modelled from the spec: the framework's membership test for a
    primitive type.  [Int] holds the integers and [Float] the real numbers,
    neither the booleans; [Threads] is a positive [Int] or the word
    ["auto"]. *)
Definition is_primitive (t : primitive) (v : pyval) : bool :=
  match t, v with
  | Int, PInt _ => true
  | Str, PStr _ => true
  | Float, PFloat _ | Float, PInt _ => true
  | Bool, PBool _ => true
  | Threads, PInt z => 1 <=? z
  | Threads, PStr s => (s =? "auto")%string
  | _, _ => false
  end.

(** Modelled from the spec: membership in a registered type, [t % pred]
    being the elements of [t] that satisfy [pred]. *)
Definition is_element (t : semantic_type) (v : pyval) : bool :=
  match t with
  | Plain t => is_primitive t v
  | Refined t pred => is_primitive t v && satisfies pred v
  end.

(** A registered method: the [parameters] dictionary of its
    [register_function] call, and the defaults of the function's
    signature. *)
Record registered : Type := {
  parameters : list (string * semantic_type);
  signature : list (string * pyval)
}.

Definition lookup {A : Type} (key : string) (d : list (string * A))
  : option A :=
  option_map snd (find (fun kv => (fst kv =? key)%string) d).

Definition trim_single_method : registered := {|
  parameters :=
    [ ("k", Int %% Range (Some 1) None true false);
      ("ktrim", Str %% Choices ["f"; "r"; "l"]);
      ("mink", Int %% Range (Some 0) None true false);
      ("qtrim", Str %% Choices ["rl"; "f"; "r"; "l"; "w"]);
      ("trimq", Float %% Range (Some 0) None true false);
      ("minlength", Int %% Range (Some 1) None true false);
      ("ref", Plain Str);
      ("literal", Plain Str);
      ("forcetrimleft", Int %% Range (Some 0) None true false);
      ("forcetrimright", Int %% Range (Some 0) None true false);
      ("kmask", Plain Str);
      ("threads", Plain Threads) ];
  signature :=
    [ ("k", s_k single_defaults);
      ("ktrim", s_ktrim single_defaults);
      ("mink", s_mink single_defaults);
      ("qtrim", s_qtrim single_defaults);
      ("trimq", s_trimq single_defaults);
      ("minlength", s_minlength single_defaults);
      ("ref", s_ref single_defaults);
      ("literal", s_literal single_defaults);
      ("forcetrimleft", s_forcetrimleft single_defaults);
      ("forcetrimright", s_forcetrimright single_defaults);
      ("kmask", s_kmask single_defaults);
      ("threads", s_threads single_defaults) ]
|}.

Definition trim_paired_method : registered := {|
  parameters :=
    [ ("k", Int %% Range (Some 1) None true false);
      ("ktrim", Str %% Choices ["f"; "r"; "l"]);
      ("mink", Int %% Range (Some 0) None true false);
      ("qtrim", Str %% Choices ["rl"; "f"; "r"; "l"; "w"]);
      ("trimq", Float %% Range (Some 0) None true false);
      ("minlength", Int %% Range (Some 1) None true false);
      ("tpe", Plain Bool);
      ("tbo", Plain Bool);
      ("minoverlap", Int %% Range (Some 1) None true false);
      ("ref", Plain Str);
      ("literal", Plain Str);
      ("forcetrimleft", Int %% Range (Some 0) None true false);
      ("forcetrimright", Int %% Range (Some 0) None true false);
      ("kmask", Plain Str);
      ("threads", Plain Threads) ];
  signature :=
    [ ("k", p_k paired_defaults);
      ("ktrim", p_ktrim paired_defaults);
      ("mink", p_mink paired_defaults);
      ("qtrim", p_qtrim paired_defaults);
      ("trimq", p_trimq paired_defaults);
      ("minlength", p_minlength paired_defaults);
      ("tpe", p_tpe paired_defaults);
      ("tbo", p_tbo paired_defaults);
      ("minoverlap", p_minoverlap paired_defaults);
      ("ref", p_ref paired_defaults);
      ("literal", p_literal paired_defaults);
      ("forcetrimleft", p_forcetrimleft paired_defaults);
      ("forcetrimright", p_forcetrimright paired_defaults);
      ("kmask", p_kmask paired_defaults);
      ("threads", p_threads paired_defaults) ]
|}.

(** Modelled from the spec: the framework's check of one keyword argument
    of a call.  The name must be a registered parameter and the value an
    element of its type; [None] passes for a parameter whose default is
    [None]. *)
Definition accepts (m : registered) (name : string) (v : pyval) : bool :=
  match lookup name (parameters m) with
  | None => false
  | Some t =>
      is_element t v
      || (negb (is_not_None v)
          && match lookup name (signature m) with
             | Some PNone => true
             | _ => false
             end)
  end.

(** Modelled from the spec: the framework's check of a call, argument by
    argument. *)
Definition validate (m : registered) (kwargs : list (string * pyval)) : bool :=
  forallb (fun kv => accepts m (fst kv) (snd kv)) kwargs.

(** The value a call binds to a parameter: the caller's, else the
    default. *)
Definition argument (kwargs : list (string * pyval)) (name : string)
  (default : pyval) : pyval :=
  match lookup name kwargs with
  | Some v => v
  | None => default
  end.

Definition bind_single (kwargs : list (string * pyval)) : single_params := {|
  s_k := argument kwargs "k" (s_k single_defaults);
  s_ktrim := argument kwargs "ktrim" (s_ktrim single_defaults);
  s_mink := argument kwargs "mink" (s_mink single_defaults);
  s_qtrim := argument kwargs "qtrim" (s_qtrim single_defaults);
  s_trimq := argument kwargs "trimq" (s_trimq single_defaults);
  s_minlength := argument kwargs "minlength" (s_minlength single_defaults);
  s_ref := argument kwargs "ref" (s_ref single_defaults);
  s_literal := argument kwargs "literal" (s_literal single_defaults);
  s_forcetrimleft :=
    argument kwargs "forcetrimleft" (s_forcetrimleft single_defaults);
  s_forcetrimright :=
    argument kwargs "forcetrimright" (s_forcetrimright single_defaults);
  s_kmask := argument kwargs "kmask" (s_kmask single_defaults);
  s_threads := argument kwargs "threads" (s_threads single_defaults)
|}.

Definition bind_paired (kwargs : list (string * pyval)) : paired_params := {|
  p_k := argument kwargs "k" (p_k paired_defaults);
  p_ktrim := argument kwargs "ktrim" (p_ktrim paired_defaults);
  p_mink := argument kwargs "mink" (p_mink paired_defaults);
  p_qtrim := argument kwargs "qtrim" (p_qtrim paired_defaults);
  p_trimq := argument kwargs "trimq" (p_trimq paired_defaults);
  p_minlength := argument kwargs "minlength" (p_minlength paired_defaults);
  p_tpe := argument kwargs "tpe" (p_tpe paired_defaults);
  p_tbo := argument kwargs "tbo" (p_tbo paired_defaults);
  p_minoverlap := argument kwargs "minoverlap" (p_minoverlap paired_defaults);
  p_ref := argument kwargs "ref" (p_ref paired_defaults);
  p_literal := argument kwargs "literal" (p_literal paired_defaults);
  p_forcetrimleft :=
    argument kwargs "forcetrimleft" (p_forcetrimleft paired_defaults);
  p_forcetrimright :=
    argument kwargs "forcetrimright" (p_forcetrimright paired_defaults);
  p_kmask := argument kwargs "kmask" (p_kmask paired_defaults);
  p_threads := argument kwargs "threads" (p_threads paired_defaults)
|}.

(** Modelled from the spec: a call of a registered method through the
    framework.  The arguments are checked first, and the driver runs only
    when all pass; a rejected call raises before anything is done. *)
Definition call_trim_single (manifest : list single_row)
  (kwargs : list (string * pyval)) (w : World)
  : list event * World * result string :=
  if validate trim_single_method kwargs
  then trim_single manifest (bind_single kwargs) w
  else ([], w, Raise TypeError).

(** Modelled from the spec: the same for the paired-end method. *)
Definition call_trim_paired (manifest : list paired_row)
  (kwargs : list (string * pyval)) (w : World)
  : list event * World * result string :=
  if validate trim_paired_method kwargs
  then trim_paired manifest (bind_paired kwargs) w
  else ([], w, Raise TypeError).

(** ** Reading a command line and a trace *)

(** [strip_prefix p s] is what follows [p] in [s], when [s] starts
    with [p]. *)
Fixpoint strip_prefix (p s : string) : option string :=
  match p, s with
  | EmptyString, _ => Some s
  | String c p', String d s' =>
      if (c =? d)%char then strip_prefix p' s' else None
  | String _ _, EmptyString => None
  end.

(** The values of the flag [name] in a command line: what follows [name=]
    in each argument that starts with it, in order.  A flag that is absent
    has no value, one that occurs once has one. *)
Definition flag_values (name : string) (cmd : cmdline) : list string :=
  flat_map (fun arg =>
              match strip_prefix (name +++ "=") arg with
              | Some v => [v]
              | None => []
              end) cmd.

(** The zero or one values a conditional flag contributes. *)
Definition when (b : bool) (v : string) : list string :=
  if b then [v] else [].

(** The subprocess invocations of a trace, in the order they were issued. *)
Definition invocations (tr : list event) : list cmdline :=
  flat_map (fun e =>
              match e with
              | Subprocess cmd => [cmd]
              | Stdout _ => []
              end) tr.


(** ** The command line in one piece *)

(** The arguments the builder starts from. *)
Definition core_args (a : bbduk_args) : cmdline :=
  [ "bbduk.sh";
    "in=" +++ format (in1 a);
    "out=" +++ format (out1 a);
    "k=" +++ format (k a);
    "ktrim=" +++ format (ktrim a);
    "qtrim=" +++ format (qtrim a);
    "trimq=" +++ format (trimq a);
    "minlength=" +++ format (minlength a);
    "threads=" +++ format (threads a);
    "overwrite=" +++ (if truthy (overwrite a) then "t" else "f");
    "ziplevel=2";
    "ordered=f" ].

(** What the block guarded by [in2 is not None and out2 is not None]
    adds. *)
Definition pair_args (a : bbduk_args) : cmdline :=
  if is_not_None (in2 a) && is_not_None (out2 a) then
    ["in2=" +++ format (in2 a); "out2=" +++ format (out2 a)]
    ++ when (truthy (tpe a)) "tpe=t"
    ++ (if truthy (tbo a)
        then ["tbo=t"; "minoverlap=" +++ format (minoverlap a)]
        else [])
  else [].

(** The command line for given outcomes of the three guards that compare
    ([mink], [forcetrimleft], [forcetrimright]). *)
Definition assembled (a : bbduk_args) (bm bl br : bool) : cmdline :=
  core_args a
  ++ when bm ("mink=" +++ format (mink a))
  ++ pair_args a
  ++ when (truthy (ref a)) ("ref=" +++ format (ref a))
  ++ when (truthy (literal a)) ("literal=" +++ format (literal a))
  ++ when bl ("forcetrimleft=" +++ format (forcetrimleft a))
  ++ when br ("forcetrimright=" +++ format (forcetrimright a))
  ++ when (truthy (kmask a)) ("kmask=" +++ format (kmask a))
  ++ when (truthy (stats_fp a)) ("stats=" +++ format (stats_fp a)).

(** The output directory and the temporary directory a driver started in
    [w] works with, and the world in which its batch starts. *)
Definition out_dir (w : World) : string := fst (new_dirfmt w).
Definition temp_dir (w : World) : string :=
  fst (mkdtemp (snd (new_dirfmt w))).
Definition batch_world (w : World) : World :=
  snd (mkdtemp (snd (new_dirfmt w))).

(** The trace and the result of a driver's run. *)
Definition trace_of {A : Type} (run : list event * World * result A)
  : list event := fst (fst run).
Definition world_of {A : Type} (run : list event * World * result A)
  : World := snd (fst run).
Definition result_of {A : Type} (run : list event * World * result A)
  : result A := snd run.

(** What a command of [trim_single]'s batch has to do with its row: it
    reads the row's file and writes to the output directory under the same
    base name. *)
Definition single_row_command (out_path : string) (row : single_row)
  (cmd : cmdline) : Prop :=
  flag_values "in" cmd = [snd row]
  /\ flag_values "out" cmd = [path_join out_path (basename (snd row))].

(** ** The types of the parameters *)

Definition is_str (v : pyval) : bool :=
  match v with PStr _ => true | _ => false end.
Definition is_int (v : pyval) : bool :=
  match v with PInt _ => true | _ => false end.
Definition is_bool (v : pyval) : bool :=
  match v with PBool _ => true | _ => false end.
(** A real number: a float, or an int where a float is expected. *)
Definition is_real (v : pyval) : bool :=
  match v with PFloat _ | PInt _ => true | _ => false end.
Definition optional (ty : pyval -> bool) (v : pyval) : bool :=
  match v with PNone => true | _ => ty v end.

(** The parameter types of [trim_single], after its annotations: the
    parameters whose default is [None] may be [None], and the thread count
    may be the word the framework's [Threads] type allows. *)
Definition single_typed (p : single_params) : bool :=
  is_int (s_k p) && is_str (s_ktrim p) && optional is_int (s_mink p)
  && is_str (s_qtrim p) && is_real (s_trimq p) && is_int (s_minlength p)
  && optional is_str (s_ref p) && optional is_str (s_literal p)
  && is_int (s_forcetrimleft p) && is_int (s_forcetrimright p)
  && optional is_str (s_kmask p)
  && (is_int (s_threads p) || is_str (s_threads p)).

Definition paired_typed (p : paired_params) : bool :=
  is_int (p_k p) && is_str (p_ktrim p) && optional is_int (p_mink p)
  && is_str (p_qtrim p) && is_real (p_trimq p) && is_int (p_minlength p)
  && is_bool (p_tpe p) && is_bool (p_tbo p) && is_int (p_minoverlap p)
  && optional is_str (p_ref p) && optional is_str (p_literal p)
  && is_int (p_forcetrimleft p) && is_int (p_forcetrimright p)
  && optional is_str (p_kmask p)
  && (is_int (p_threads p) || is_str (p_threads p)).

(** The parameter types of the builder: those of the drivers, paths as
    strings, the second pair of paths and the statistics file optional. *)
Definition well_typed (a : bbduk_args) : bool :=
  is_str (in1 a) && is_str (out1 a)
  && optional is_str (in2 a) && optional is_str (out2 a)
  && (is_int (threads a) || is_str (threads a))
  && is_int (k a) && is_str (ktrim a) && optional is_int (mink a)
  && is_str (qtrim a) && is_real (trimq a) && is_int (minlength a)
  && is_bool (tpe a) && is_bool (tbo a) && is_int (minoverlap a)
  && optional is_str (ref a) && optional is_str (literal a)
  && is_int (forcetrimleft a) && is_int (forcetrimright a)
  && optional is_str (kmask a) && is_bool (overwrite a)
  && optional is_str (stats_fp a).

(** A positive int; a string that is not empty; the boolean [True]. *)
Definition positive (v : pyval) : bool :=
  match v with PInt z => 0 <? z | _ => false end.
Definition nonempty (v : pyval) : bool :=
  match v with PStr s => negb (s =? "")%string | _ => false end.
Definition is_True (v : pyval) : bool :=
  match v with PBool b => b | _ => false end.


(** ** The flag vocabulary and the announcement of a command *)

(** The flag names the builder writes, in the order of their first use in
    [_build_bbduk_cmd]. *)
Definition flag_vocabulary : list string :=
  [ "in"; "out"; "k"; "ktrim"; "qtrim"; "trimq"; "minlength"; "threads";
    "overwrite"; "ziplevel"; "ordered"; "mink"; "in2"; "out2"; "tpe"; "tbo";
    "minoverlap"; "ref"; "literal"; "forcetrimleft"; "forcetrimright";
    "kmask"; "stats" ].

(** An argument of the form [name=...]. *)
Definition carries_flag (name arg : string) : bool :=
  match strip_prefix (name +++ "=") arg with
  | Some _ => true
  | None => false
  end.

(** An argument of the form [name=...] for a name of the vocabulary. *)
Definition known_flag (arg : string) : bool :=
  existsb (fun name => carries_flag name arg) flag_vocabulary.

(** What [run_commands] does for one command: the two prints, then the
    subprocess. *)
Definition announced (cmd : cmdline) : list event :=
  [ Stdout (newline +++ "Command:" +++ " ");
    Stdout (String.concat " " cmd +++ newline +++ newline);
    Subprocess cmd ].

End Bbduk.

(** ** Concrete floats, systems and inputs *)

(** The floats of integral value, as an int: Python prints them with a
    trailing [.0] (below 10^16 in magnitude). *)
Definition integral_floats : PyFloat := {|
  float := Z;
  float_repr := fun f => str_int f +++ ".0";
  float_compare_int := fun f n => Some (f ?= n);
  float_of_int := fun n => n
|}.

(** A system whose subprocesses end as a script says, one entry per
    invocation, and exit with status zero once the script is used up. *)
Definition scripted : OS := {|
  World := list completed;
  subprocess_run := fun _ w =>
    match w with
    | [] => (Exited 0, [])
    | c :: w' => (c, w')
    end;
  new_dirfmt := fun w => ("/tmp/q2-out", w);
  mkdtemp := fun w => ("/tmp/tmpbbduk", w);
  rmtree := fun _ w => w;
  path_join := fun d name => d +++ "/" +++ name
|}.

(** The same floats with a NaN besides: it prints as [nan] and has no order
    to any int. *)
Definition floats_with_nan : PyFloat := {|
  float := option Z;
  float_repr := fun f =>
    match f with
    | Some z => str_int z +++ ".0"
    | None => "nan"
    end;
  float_compare_int := fun f n => option_map (fun z => z ?= n) f;
  float_of_int := fun n => Some n
|}.

Section Concrete.
#[local] Existing Instance integral_floats.
#[local] Existing Instance scripted.

(** A paired-end call of the builder with every optional value given. *)
Definition args_full : bbduk_args := {|
  in1 := PStr "/data/s1_R1.fastq.gz"; out1 := PStr "/out/s1_R1.fastq.gz";
  in2 := PStr "/data/s1_R2.fastq.gz"; out2 := PStr "/out/s1_R2.fastq.gz";
  threads := PInt 4; k := PInt 23; ktrim := PStr "r"; mink := PInt 5;
  qtrim := PStr "rl"; trimq := PFloat 10; minlength := PInt 30;
  tpe := PBool true; tbo := PBool true; minoverlap := PInt 14;
  ref := PStr "adapters"; literal := PStr "ACGT";
  forcetrimleft := PInt 3; forcetrimright := PInt 120;
  kmask := PStr "lc"; overwrite := PBool true;
  stats_fp := PStr "/td/s1_R1.fastq.gz.bbduk.stats.txt"
|}.

(** A single-end call with the defaults, [mink=0] and a negative left
    trim position. *)
Definition args_negative_trim : bbduk_args := {|
  in1 := PStr "/data/s1_R1.fastq.gz"; out1 := PStr "/out/s1_R1.fastq.gz";
  in2 := PNone; out2 := PNone;
  threads := PInt 1; k := PInt 27; ktrim := PStr "f"; mink := PInt 0;
  qtrim := PStr "f"; trimq := PFloat 6; minlength := PInt 10;
  tpe := PBool false; tbo := PBool false; minoverlap := PInt 14;
  ref := PNone; literal := PNone;
  forcetrimleft := PInt (-1); forcetrimright := PInt 0;
  kmask := PNone; overwrite := PBool true;
  stats_fp := PNone
|}.

(** A call that gives [mink] as text. *)
Definition args_mink_text : bbduk_args := {|
  in1 := PStr "a.fq"; out1 := PStr "b.fq";
  in2 := PNone; out2 := PNone;
  threads := PInt 1; k := PInt 27; ktrim := PStr "f"; mink := PStr "5";
  qtrim := PStr "f"; trimq := PFloat 6; minlength := PInt 10;
  tpe := PBool false; tbo := PBool false; minoverlap := PInt 14;
  ref := PNone; literal := PNone;
  forcetrimleft := PInt 0; forcetrimright := PInt 0;
  kmask := PNone; overwrite := PBool true;
  stats_fp := PNone
|}.

(** What the builder returns for [args_full] and for
    [args_negative_trim]. *)
Definition cmd_full : cmdline :=
  [ "bbduk.sh"; "in=/data/s1_R1.fastq.gz"; "out=/out/s1_R1.fastq.gz";
    "k=23"; "ktrim=r"; "qtrim=rl"; "trimq=10.0"; "minlength=30";
    "threads=4"; "overwrite=t"; "ziplevel=2"; "ordered=f"; "mink=5";
    "in2=/data/s1_R2.fastq.gz"; "out2=/out/s1_R2.fastq.gz"; "tpe=t";
    "tbo=t"; "minoverlap=14"; "ref=adapters"; "literal=ACGT";
    "forcetrimleft=3"; "forcetrimright=120"; "kmask=lc";
    "stats=/td/s1_R1.fastq.gz.bbduk.stats.txt" ].

Definition cmd_negative_trim : cmdline :=
  [ "bbduk.sh"; "in=/data/s1_R1.fastq.gz"; "out=/out/s1_R1.fastq.gz";
    "k=27"; "ktrim=f"; "qtrim=f"; "trimq=6.0"; "minlength=10";
    "threads=1"; "overwrite=t"; "ziplevel=2"; "ordered=f" ].


Definition manifest_single : list single_row :=
  [ ("s1", "/data/s1_R1.fastq.gz"); ("s2", "/data/s2_R1.fastq.gz") ].

(** A paired-end manifest of two samples, and one whose only sample has
    the same base name for both reads. *)
Definition manifest_paired : list paired_row :=
  [ ("s1", "/data/s1_R1.fastq.gz", "/data/s1_R2.fastq.gz");
    ("s2", "/data/s2_R1.fastq.gz", "/data/s2_R2.fastq.gz") ].


(** Paired-end parameters with both pair-only options on. *)
Definition paired_both_on : paired_params := {|
  p_k := PInt 27; p_ktrim := PStr "r"; p_mink := PInt 11;
  p_qtrim := PStr "f"; p_trimq := PFloat 6; p_minlength := PInt 10;
  p_tpe := PBool true; p_tbo := PBool true; p_minoverlap := PInt 14;
  p_ref := PStr "adapters"; p_literal := PNone;
  p_forcetrimleft := PInt 0; p_forcetrimright := PInt 0;
  p_kmask := PNone; p_threads := PInt 2
|}.

(** A batch of five commands, and a world in which the third subprocess
    exits with status 3. *)
Definition five_cmds : list cmdline :=
  [ ["bbduk.sh"; "in=s1.fq"; "out=o/s1.fq"];
    ["bbduk.sh"; "in=s2.fq"; "out=o/s2.fq"];
    ["bbduk.sh"; "in=s3.fq"; "out=o/s3.fq"];
    ["bbduk.sh"; "in=s4.fq"; "out=o/s4.fq"];
    ["bbduk.sh"; "in=s5.fq"; "out=o/s5.fq"] ].

Definition third_fails : list completed := [Exited 0; Exited 0; Exited 3].

(** A world in which the first subprocess exits with status 1, and one in
    which every subprocess exits with status 0. *)
Definition first_fails : list completed := [Exited 1].
Definition none_fails : list completed := [].

(** The output and the temporary directory of the scripted system. *)
Definition out0 : string := out_dir (first_fails : World).
Definition td0 : string := temp_dir (first_fails : World).

(** The batches the drivers build from these manifests. *)
Definition batch_of (built : result (list cmdline)) : list cmdline :=
  match built with
  | Ok cmds => cmds
  | Raise _ => []
  end.


Definition cmds_single : list cmdline :=
  Eval vm_compute in
    batch_of (build_all (single_cmd single_defaults out0 td0)
                manifest_single).

Definition cmds_paired : list cmdline :=
  Eval vm_compute in
    batch_of (build_all (paired_cmd paired_both_on out0 td0)
                manifest_paired).


(** A call of the builder with a reverse input, no reverse output and
    both pair-only options on, and what the builder returns for it. *)
Definition args_half_pair : bbduk_args := {|
  in1 := PStr "/data/s1_R1.fastq.gz"; out1 := PStr "/out/s1_R1.fastq.gz";
  in2 := PStr "/data/s1_R2.fastq.gz"; out2 := PNone;
  threads := PInt 1; k := PInt 27; ktrim := PStr "f"; mink := PNone;
  qtrim := PStr "f"; trimq := PFloat 6; minlength := PInt 10;
  tpe := PBool true; tbo := PBool true; minoverlap := PInt 14;
  ref := PNone; literal := PNone;
  forcetrimleft := PInt 0; forcetrimright := PInt 0;
  kmask := PNone; overwrite := PBool false;
  stats_fp := PNone
|}.

Definition cmd_half_pair : cmdline :=
  [ "bbduk.sh"; "in=/data/s1_R1.fastq.gz"; "out=/out/s1_R1.fastq.gz";
    "k=27"; "ktrim=f"; "qtrim=f"; "trimq=6.0"; "minlength=10";
    "threads=1"; "overwrite=f"; "ziplevel=2"; "ordered=f" ].

(** Single-end parameters with [mink] given as text. *)
Definition single_text_mink : single_params := {|
  s_k := PInt 27; s_ktrim := PStr "f"; s_mink := PStr "5";
  s_qtrim := PStr "f"; s_trimq := PFloat 6; s_minlength := PInt 10;
  s_ref := PNone; s_literal := PNone;
  s_forcetrimleft := PInt 0; s_forcetrimright := PInt 0;
  s_kmask := PNone; s_threads := PInt 1
|}.

End Concrete.

(** * Properties *)

(** Splits the conjunctions of a typing hypothesis. *)
Ltac split_andb :=
  repeat match goal with
         | H : _ && _ = true |- _ => apply andb_prop in H; destruct H
         end.

Section BuilderFacts.
Context {FM : PyFloat}.

(** A guarded [cmd += extra] appends what the guard lets through. *)
Lemma guarded_append (b : bool) (cmd extra : cmdline) :
  (if b then cmd ++ extra else cmd) = cmd ++ (if b then extra else []).
Proof. destruct b; [reflexivity | now rewrite app_nil_r]. Qed.

(** The builder, step by step, computes the command line in one piece. *)
Lemma build_assembled (a : bbduk_args) :
  _build_bbduk_cmd a =
    (bm <- not_None_and_gt0 (mink a) ;;
     bl <- and_gt0 (forcetrimleft a) ;;
     br <- and_gt0 (forcetrimright a) ;;
     Ok (assembled a bm bl br)).
Proof.
  unfold _build_bbduk_cmd, assembled, pair_args, when.
  fold (core_args a). generalize (core_args a) as c. intro c.
  destruct (not_None_and_gt0 (mink a)) as [bm|e]; cbn [bind]; trivial.
  destruct (and_gt0 (forcetrimleft a)) as [bl|e]; cbn [bind]; trivial.
  destruct (and_gt0 (forcetrimright a)) as [br|e]; cbn [bind]; trivial.
  cbv zeta. f_equal.
  repeat (rewrite guarded_append || rewrite <- app_assoc).
  reflexivity.
Qed.

(** ** Reading flags off an assembled command line *)

Lemma flag_values_app (name : string) (c1 c2 : cmdline) :
  flag_values name (c1 ++ c2) = flag_values name c1 ++ flag_values name c2.
Proof. unfold flag_values. apply flat_map_app. Qed.

(** A conditional argument that carries another flag contributes nothing. *)
Lemma flag_values_when_other (name : string) (b : bool) (arg : string) :
  strip_prefix (name +++ "=") arg = None ->
  flag_values name (when b arg) = [].
Proof.
  intros Hp. destruct b; [|reflexivity].
  unfold flag_values, when; cbn [flat_map]. now rewrite Hp.
Qed.

(** A conditional argument that carries the flag contributes its value. *)
Lemma flag_values_when_same (name : string) (b : bool) (arg v : string) :
  strip_prefix (name +++ "=") arg = Some v ->
  flag_values name (when b arg) = when b v.
Proof.
  intros Hp. destruct b; [|reflexivity].
  unfold flag_values, when; cbn [flat_map]. now rewrite Hp.
Qed.

Lemma in_when (b : bool) (arg x : string) : In x (when b arg) -> x = arg.
Proof. destruct b; cbn; intuition. Qed.

Lemma flag_values_pair_args (name : string) (a : bbduk_args) :
  flag_values name (pair_args a) =
    if is_not_None (in2 a) && is_not_None (out2 a) then
      flag_values name
        ["in2=" +++ format (in2 a); "out2=" +++ format (out2 a)]
      ++ flag_values name (when (truthy (tpe a)) "tpe=t")
      ++ (if truthy (tbo a)
          then flag_values name
                 ["tbo=t"; "minoverlap=" +++ format (minoverlap a)]
          else [])
    else [].
Proof.
  unfold pair_args.
  destruct (is_not_None (in2 a) && is_not_None (out2 a)); [|reflexivity].
  rewrite !flag_values_app. now destruct (truthy (tbo a)).
Qed.

(** Reads the flag [name] off [assembled a bm bl br]: the pieces that carry
    another flag vanish, the rest is computed. *)
Ltac read_flag :=
  unfold assembled; rewrite !flag_values_app, flag_values_pair_args;
  repeat match goal with
         | |- context [flag_values ?n (when ?b ?arg)] =>
             first [ rewrite (flag_values_when_other n b arg) by reflexivity
                   | erewrite (flag_values_when_same n b arg) by reflexivity ]
         end;
  unfold core_args; cbn;
  repeat match goal with
         | |- context [if ?c then _ else _] =>
             lazymatch c with
             | is_not_None _ && is_not_None _ => destruct c
             | truthy (tbo _) => destruct c
             end
         end;
  cbn; rewrite ?app_nil_r; try reflexivity.

(** From [Ok cmd], the guards' outcomes and the assembled form of [cmd]. *)
Lemma build_Ok_inv (a : bbduk_args) (cmd : cmdline) :
  _build_bbduk_cmd a = Ok cmd ->
  exists bm bl br,
    not_None_and_gt0 (mink a) = Ok bm
    /\ and_gt0 (forcetrimleft a) = Ok bl
    /\ and_gt0 (forcetrimright a) = Ok br
    /\ cmd = assembled a bm bl br.
Proof.
  rewrite build_assembled.
  destruct (not_None_and_gt0 (mink a)) as [bm|]; [|discriminate].
  destruct (and_gt0 (forcetrimleft a)) as [bl|]; [|discriminate].
  destruct (and_gt0 (forcetrimright a)) as [br|]; [|discriminate].
  cbn. intros [= <-]. now exists bm, bl, br.
Qed.

(** ** The guards on typed values *)

Lemma typed_mink_guard (v : pyval) :
  optional is_int v = true -> not_None_and_gt0 v = Ok (positive v).
Proof. destruct v; cbn; congruence. Qed.

Lemma typed_trim_guard (v : pyval) :
  is_int v = true -> and_gt0 v = Ok (positive v).
Proof.
  destruct v as [| | z | |]; cbn; try congruence. intros _.
  unfold and_gt0; cbn. destruct (Z.eqb_spec z 0) as [->|]; reflexivity.
Qed.

Lemma typed_str_truthy (v : pyval) :
  optional is_str v = true -> truthy v = nonempty v.
Proof. destruct v; cbn; congruence. Qed.

Lemma typed_bool_truthy (v : pyval) :
  is_bool v = true -> truthy v = is_True v.
Proof. destruct v; cbn; congruence. Qed.

(** On typed arguments each comparing guard has an outcome, so the builder
    returns, and returns this. *)
Lemma build_typed (a : bbduk_args) :
  well_typed a = true ->
  _build_bbduk_cmd a =
    Ok (assembled a (positive (mink a)) (positive (forcetrimleft a))
          (positive (forcetrimright a))).
Proof.
  unfold well_typed. intros H. split_andb.
  rewrite build_assembled.
  rewrite (typed_mink_guard (mink a)), (typed_trim_guard (forcetrimleft a)),
    (typed_trim_guard (forcetrimright a)) by assumption.
  reflexivity.
Qed.

(** ** The command builder *)

(** The unconditional arguments lead the assembled command line, and none
    of them occurs again. *)
Lemma assembled_core_flags (a : bbduk_args) (bm bl br : bool) :
  (exists rest,
      assembled a bm bl br = core_args a ++ rest /\ ~ In "bbduk.sh" rest)
  /\ flag_values "in" (assembled a bm bl br) = [format (in1 a)]
  /\ flag_values "out" (assembled a bm bl br) = [format (out1 a)]
  /\ flag_values "k" (assembled a bm bl br) = [format (k a)]
  /\ flag_values "ktrim" (assembled a bm bl br) = [format (ktrim a)]
  /\ flag_values "qtrim" (assembled a bm bl br) = [format (qtrim a)]
  /\ flag_values "trimq" (assembled a bm bl br) = [format (trimq a)]
  /\ flag_values "minlength" (assembled a bm bl br) = [format (minlength a)]
  /\ flag_values "threads" (assembled a bm bl br) = [format (threads a)]
  /\ flag_values "overwrite" (assembled a bm bl br)
     = [if truthy (overwrite a) then "t" else "f"]
  /\ flag_values "ziplevel" (assembled a bm bl br) = ["2"]
  /\ flag_values "ordered" (assembled a bm bl br) = ["f"].
Proof.
  split.
  - eexists. split; [reflexivity|].
    intros Hin.
    repeat (apply in_app_or in Hin; destruct Hin as [Hin|Hin]);
      try (apply in_when in Hin; discriminate Hin).
    unfold pair_args in Hin.
    destruct (is_not_None (in2 a) && is_not_None (out2 a)); [|destruct Hin].
    destruct (truthy (tpe a)), (truthy (tbo a)); cbn in Hin;
      repeat (destruct Hin as [Hin|Hin]; [discriminate Hin|]);
      destruct Hin.
  - repeat split; read_flag.
Qed.

(** The pair-only flags of the assembled command line. *)
Lemma assembled_pair_flags (a : bbduk_args) (bm bl br : bool) :
  let pair := is_not_None (in2 a) && is_not_None (out2 a) in
  flag_values "in2" (assembled a bm bl br)
  = when pair (format (in2 a))
  /\ flag_values "out2" (assembled a bm bl br)
     = when pair (format (out2 a))
  /\ flag_values "tpe" (assembled a bm bl br)
     = when (pair && truthy (tpe a)) "t"
  /\ flag_values "tbo" (assembled a bm bl br)
     = when (pair && truthy (tbo a)) "t"
  /\ flag_values "minoverlap" (assembled a bm bl br)
     = when (pair && truthy (tbo a)) (format (minoverlap a)).
Proof.
  cbv zeta. repeat split; read_flag; now destruct (truthy (tpe a)).
Qed.

(** C2. Whatever the arguments, a command line the builder returns starts
    with [bbduk.sh] followed by [in=], [out=], [k=], [ktrim=], [qtrim=],
    [trimq=], [minlength=], [threads=], [overwrite=] ([t] or [f]),
    [ziplevel=2] and [ordered=f], in this order, and each of them occurs
    exactly once in the whole command line. *)
Theorem build_core_flags_once (a : bbduk_args) (cmd : cmdline) :
  _build_bbduk_cmd a = Ok cmd ->
  (exists rest,
      cmd = [ "bbduk.sh";
              "in=" +++ format (in1 a);
              "out=" +++ format (out1 a);
              "k=" +++ format (k a);
              "ktrim=" +++ format (ktrim a);
              "qtrim=" +++ format (qtrim a);
              "trimq=" +++ format (trimq a);
              "minlength=" +++ format (minlength a);
              "threads=" +++ format (threads a);
              "overwrite=" +++ (if truthy (overwrite a) then "t" else "f");
              "ziplevel=2";
              "ordered=f" ] ++ rest
      /\ ~ In "bbduk.sh" rest)
  /\ flag_values "in" cmd = [format (in1 a)]
  /\ flag_values "out" cmd = [format (out1 a)]
  /\ flag_values "k" cmd = [format (k a)]
  /\ flag_values "ktrim" cmd = [format (ktrim a)]
  /\ flag_values "qtrim" cmd = [format (qtrim a)]
  /\ flag_values "trimq" cmd = [format (trimq a)]
  /\ flag_values "minlength" cmd = [format (minlength a)]
  /\ flag_values "threads" cmd = [format (threads a)]
  /\ flag_values "overwrite" cmd = [if truthy (overwrite a) then "t" else "f"]
  /\ flag_values "ziplevel" cmd = ["2"]
  /\ flag_values "ordered" cmd = ["f"].
Proof.
  intros H. apply build_Ok_inv in H.
  destruct H as (bm & bl & br & _ & _ & _ & ->).
  exact (assembled_core_flags a bm bl br).
Qed.

(** C7. On typed arguments, with any of the optional ones absent, the
    builder returns a command line: no guard raises. *)
Theorem build_total (a : bbduk_args) :
  well_typed a = true -> exists cmd, _build_bbduk_cmd a = Ok cmd.
Proof. intros H. rewrite (build_typed a H). eauto. Qed.

(** C1, amended. On typed arguments each conditional flag occurs once, with
    the value formatted, when its trigger holds, and not at all otherwise:
    [mink] for a positive int, [ref], [literal], [kmask] and [stats] for a
    non-empty string, [forcetrimleft] and [forcetrimright] for a positive
    int. *)
Theorem build_conditional_flags (a : bbduk_args) (cmd : cmdline) :
  well_typed a = true ->
  _build_bbduk_cmd a = Ok cmd ->
  flag_values "mink" cmd = when (positive (mink a)) (format (mink a))
  /\ flag_values "ref" cmd = when (nonempty (ref a)) (format (ref a))
  /\ flag_values "literal" cmd
     = when (nonempty (literal a)) (format (literal a))
  /\ flag_values "forcetrimleft" cmd
     = when (positive (forcetrimleft a)) (format (forcetrimleft a))
  /\ flag_values "forcetrimright" cmd
     = when (positive (forcetrimright a)) (format (forcetrimright a))
  /\ flag_values "kmask" cmd = when (nonempty (kmask a)) (format (kmask a))
  /\ flag_values "stats" cmd
     = when (nonempty (stats_fp a)) (format (stats_fp a)).
Proof.
  intros Ht H. rewrite (build_typed a Ht) in H. injection H as <-.
  unfold well_typed in Ht. split_andb.
  rewrite <- (typed_str_truthy (ref a)), <- (typed_str_truthy (literal a)),
    <- (typed_str_truthy (kmask a)), <- (typed_str_truthy (stats_fp a))
    by assumption.
  repeat split; read_flag.
Qed.

(** C5. The flags [in2], [out2], [tpe], [tbo] and [minoverlap] occur only
    in a command line built with a reverse read: without one none of them
    occurs, and where one of them occurs a reverse read was given. *)
Theorem build_pair_flags_need_reverse (a : bbduk_args) (cmd : cmdline) :
  _build_bbduk_cmd a = Ok cmd ->
  (in2 a = PNone ->
   flag_values "in2" cmd = [] /\ flag_values "out2" cmd = []
   /\ flag_values "tpe" cmd = [] /\ flag_values "tbo" cmd = []
   /\ flag_values "minoverlap" cmd = [])
  /\ (flag_values "in2" cmd ++ flag_values "out2" cmd
      ++ flag_values "tpe" cmd ++ flag_values "tbo" cmd
      ++ flag_values "minoverlap" cmd <> [] ->
      in2 a <> PNone).
Proof.
  intros H. apply build_Ok_inv in H.
  destruct H as (bm & bl & br & _ & _ & _ & ->).
  assert (Hnone : in2 a = PNone ->
            flag_values "in2" (assembled a bm bl br) = []
            /\ flag_values "out2" (assembled a bm bl br) = []
            /\ flag_values "tpe" (assembled a bm bl br) = []
            /\ flag_values "tbo" (assembled a bm bl br) = []
            /\ flag_values "minoverlap" (assembled a bm bl br) = []).
  { intros E.
    assert (Hp : pair_args a = []) by (unfold pair_args; now rewrite E).
    unfold assembled. rewrite Hp.
    repeat split; rewrite !flag_values_app;
      rewrite ?flag_values_when_other by reflexivity; reflexivity. }
  split; [exact Hnone|].
  intros Hne E. apply Hne.
  destruct (Hnone E) as (-> & -> & -> & -> & ->). reflexivity.
Qed.

(** ** More on the command builder *)

(** Where the two kinds of guard raise, and what they return. *)
Lemma not_None_and_gt0_cases (v : pyval) :
  exists b,
    not_None_and_gt0 v = if is_str v then Raise TypeError else Ok b.
Proof.
  destruct v; cbn; try (eexists; reflexivity). now exists true.
Qed.

Lemma and_gt0_cases (v : pyval) :
  exists b, and_gt0 v = if nonempty v then Raise TypeError else Ok b.
Proof.
  destruct v as [| b | z | f | s]; unfold and_gt0; cbn.
  - now exists false.
  - destruct b; eexists; reflexivity.
  - destruct (negb (z =? 0)); eexists; reflexivity.
  - destruct (float_compare_int f 0) as [[| |]|]; eexists; reflexivity.
  - destruct (negb (s =? "")%string); [now exists true | now exists false].
Qed.

(** The builder's result on typed arguments, written out. *)
Lemma build_typed_explicit (a : bbduk_args) :
  well_typed a = true ->
  _build_bbduk_cmd a =
    Ok ([ "bbduk.sh";
          "in=" +++ format (in1 a);
          "out=" +++ format (out1 a);
          "k=" +++ format (k a);
          "ktrim=" +++ format (ktrim a);
          "qtrim=" +++ format (qtrim a);
          "trimq=" +++ format (trimq a);
          "minlength=" +++ format (minlength a);
          "threads=" +++ format (threads a);
          "overwrite=" +++ (if is_True (overwrite a) then "t" else "f");
          "ziplevel=2";
          "ordered=f" ]
        ++ when (positive (mink a)) ("mink=" +++ format (mink a))
        ++ (if is_not_None (in2 a) && is_not_None (out2 a) then
              ["in2=" +++ format (in2 a); "out2=" +++ format (out2 a)]
              ++ when (is_True (tpe a)) "tpe=t"
              ++ (if is_True (tbo a)
                  then ["tbo=t"; "minoverlap=" +++ format (minoverlap a)]
                  else [])
            else [])
        ++ when (nonempty (ref a)) ("ref=" +++ format (ref a))
        ++ when (nonempty (literal a)) ("literal=" +++ format (literal a))
        ++ when (positive (forcetrimleft a))
             ("forcetrimleft=" +++ format (forcetrimleft a))
        ++ when (positive (forcetrimright a))
             ("forcetrimright=" +++ format (forcetrimright a))
        ++ when (nonempty (kmask a)) ("kmask=" +++ format (kmask a))
        ++ when (nonempty (stats_fp a)) ("stats=" +++ format (stats_fp a))).
Proof.
  intros Ht. rewrite (build_typed a Ht).
  unfold well_typed in Ht. split_andb.
  unfold assembled, core_args, pair_args.
  rewrite (typed_bool_truthy (overwrite a)), (typed_bool_truthy (tpe a)),
    (typed_bool_truthy (tbo a)), (typed_str_truthy (ref a)),
    (typed_str_truthy (literal a)), (typed_str_truthy (kmask a)),
    (typed_str_truthy (stats_fp a)) by assumption.
  reflexivity.
Qed.

(** X1. On typed arguments the builder returns the unconditional arguments
    followed by the conditional ones in one fixed order: [mink], then the
    pair block ([in2], [out2], [tpe], [tbo] with [minoverlap]), then [ref],
    [literal], [forcetrimleft], [forcetrimright], [kmask], [stats]. *)
Theorem build_argument_order (a : bbduk_args) :
  well_typed a = true ->
  _build_bbduk_cmd a =
    Ok ([ "bbduk.sh";
          "in=" +++ format (in1 a);
          "out=" +++ format (out1 a);
          "k=" +++ format (k a);
          "ktrim=" +++ format (ktrim a);
          "qtrim=" +++ format (qtrim a);
          "trimq=" +++ format (trimq a);
          "minlength=" +++ format (minlength a);
          "threads=" +++ format (threads a);
          "overwrite=" +++ (if is_True (overwrite a) then "t" else "f");
          "ziplevel=2";
          "ordered=f" ]
        ++ when (positive (mink a)) ("mink=" +++ format (mink a))
        ++ (if is_not_None (in2 a) && is_not_None (out2 a) then
              ["in2=" +++ format (in2 a); "out2=" +++ format (out2 a)]
              ++ when (is_True (tpe a)) "tpe=t"
              ++ (if is_True (tbo a)
                  then ["tbo=t"; "minoverlap=" +++ format (minoverlap a)]
                  else [])
            else [])
        ++ when (nonempty (ref a)) ("ref=" +++ format (ref a))
        ++ when (nonempty (literal a)) ("literal=" +++ format (literal a))
        ++ when (positive (forcetrimleft a))
             ("forcetrimleft=" +++ format (forcetrimleft a))
        ++ when (positive (forcetrimright a))
             ("forcetrimright=" +++ format (forcetrimright a))
        ++ when (nonempty (kmask a)) ("kmask=" +++ format (kmask a))
        ++ when (nonempty (stats_fp a)) ("stats=" +++ format (stats_fp a))).
Proof. exact (build_typed_explicit a). Qed.

(** Which exception the builder raises, and when. *)
Lemma builder_raises (a : bbduk_args) :
  (forall e, _build_bbduk_cmd a = Raise e -> e = TypeError)
  /\ (_build_bbduk_cmd a = Raise TypeError
      <-> is_str (mink a) || nonempty (forcetrimleft a)
          || nonempty (forcetrimright a) = true).
Proof.
  rewrite build_assembled.
  destruct (not_None_and_gt0_cases (mink a)) as [bm ->].
  destruct (and_gt0_cases (forcetrimleft a)) as [bl ->].
  destruct (and_gt0_cases (forcetrimright a)) as [br ->].
  destruct (is_str (mink a)), (nonempty (forcetrimleft a)),
    (nonempty (forcetrimright a)); cbn;
    (split; [intros e [= <-]; reflexivity || discriminate | ]);
    try (split; [reflexivity || discriminate | reflexivity || discriminate]).
  all: split; [intros _; reflexivity | intros _; reflexivity].
Qed.

(** X2. The builder raises nothing but [TypeError], and raises it exactly
    when [mink] is a string, or [forcetrimleft] or [forcetrimright] is a
    string that is not empty: the values its comparisons with [0] cannot
    take. *)
Theorem build_raises_iff (a : bbduk_args) :
  (forall e, _build_bbduk_cmd a = Raise e -> e = TypeError)
  /\ (_build_bbduk_cmd a = Raise TypeError
      <-> is_str (mink a) || nonempty (forcetrimleft a)
          || nonempty (forcetrimright a) = true).
Proof. exact (builder_raises a). Qed.

Lemma strip_prefix_Some (p s v : string) :
  strip_prefix p s = Some v -> s = p +++ v.
Proof.
  revert s. induction p as [|c p IH]; intros [|d s]; cbn; try discriminate.
  - now intros [= <-].
  - now intros [= <-].
  - destruct (Ascii.eqb_spec c d) as [<-|]; [|discriminate].
    intros H. now rewrite (IH _ H).
Qed.

Lemma known_flag_spelled (arg : string) :
  known_flag arg = true ->
  exists name v, In name flag_vocabulary /\ arg = name +++ "=" +++ v.
Proof.
  unfold known_flag. rewrite existsb_exists.
  intros (name & Hin & Hc). unfold carries_flag in Hc.
  destruct (strip_prefix (name +++ "=") arg) as [v|] eqn:E; [|discriminate].
  apply strip_prefix_Some in E. exists name, v. split; trivial.
  subst arg. clear. induction name as [|c name IH]; cbn in *;
    [reflexivity | now rewrite IH].
Qed.

Lemma forallb_known_when (b : bool) (arg : string) :
  known_flag arg = true -> forallb known_flag (when b arg) = true.
Proof.
  intros H. destruct b; unfold when; cbn [forallb];
    [now rewrite H | reflexivity].
Qed.

(** X3. A command line the builder returns is [bbduk.sh] followed by
    arguments of the form [name=value] only, each name one of the 23 of the
    vocabulary: the builder writes no other flag and no bare word. *)
Theorem build_known_flags_only (a : bbduk_args) (cmd : cmdline) :
  _build_bbduk_cmd a = Ok cmd ->
  exists rest,
    cmd = "bbduk.sh" :: rest
    /\ Forall (fun arg => exists name v,
                   In name flag_vocabulary /\ arg = name +++ "=" +++ v)
         rest.
Proof.
  intros H. apply build_Ok_inv in H.
  destruct H as (bm & bl & br & _ & _ & _ & ->).
  exists (tl (assembled a bm bl br)). split; [reflexivity|].
  apply Forall_forall. intros arg Hin. apply known_flag_spelled.
  revert arg Hin. apply forallb_forall.
  unfold assembled.
  match goal with
  | |- forallb _ (tl (_ ++ ?rest)) = true =>
      change (forallb known_flag (tl (core_args a) ++ rest) = true)
  end.
  rewrite !forallb_app.
  rewrite !forallb_known_when by reflexivity.
  unfold pair_args.
  destruct (is_not_None (in2 a) && is_not_None (out2 a)),
    (truthy (tpe a)), (truthy (tbo a)), (truthy (overwrite a));
    reflexivity.
Qed.

(** X4. The pair block needs both paths: [in2=] and [out2=] occur, once,
    exactly when neither [in2] nor [out2] is [None], so a reverse input
    given without a reverse output is left out; [tpe=t] and [tbo=t] occur
    only inside the block, and [minoverlap=] exactly where [tbo=t] does. *)
Theorem build_pair_block (a : bbduk_args) (cmd : cmdline) :
  _build_bbduk_cmd a = Ok cmd ->
  let pair := is_not_None (in2 a) && is_not_None (out2 a) in
  flag_values "in2" cmd = when pair (format (in2 a))
  /\ flag_values "out2" cmd = when pair (format (out2 a))
  /\ flag_values "tpe" cmd = when (pair && truthy (tpe a)) "t"
  /\ flag_values "tbo" cmd = when (pair && truthy (tbo a)) "t"
  /\ flag_values "minoverlap" cmd
     = when (pair && truthy (tbo a)) (format (minoverlap a))
  /\ (flag_values "minoverlap" cmd = [] <-> flag_values "tbo" cmd = []).
Proof.
  intros H. apply build_Ok_inv in H.
  destruct H as (bm & bl & br & _ & _ & _ & ->).
  destruct (assembled_pair_flags a bm bl br)
    as (Hin2 & Hout2 & Htpe & Htbo & Hmin).
  cbv zeta in *. rewrite Hin2, Hout2, Htpe, Htbo, Hmin.
  repeat match goal with |- _ /\ _ => split end; try reflexivity.
  destruct (is_not_None (in2 a) && is_not_None (out2 a) && truthy (tbo a));
    cbn; split; (discriminate || reflexivity).
Qed.

End BuilderFacts.

Section DriverFacts.
Context {FM : PyFloat} {os : OS}.

(** ** Running a batch *)

Lemma invocations_app (tr1 tr2 : list event) :
  invocations (tr1 ++ tr2) = invocations tr1 ++ invocations tr2.
Proof. unfold invocations. apply flat_map_app. Qed.

(** The invocations of a batch are its commands up to some point, in
    order. *)
Lemma run_commands_prefix (cmds : list cmdline) (w : World) :
  exists n, invocations (trace_of (run_commands cmds w)) = firstn n cmds.
Proof.
  revert w. induction cmds as [|c rest IH]; intros w.
  - exists 0%nat. reflexivity.
  - cbn [run_commands].
    destruct (subprocess_run c w) as [[rc|] w1].
    + destruct (rc =? 0).
      * destruct (IH w1) as [n Hn].
        destruct (run_commands rest w1) as [[tr w2] r].
        exists (S n). unfold trace_of in *. cbn in *. now rewrite Hn.
      * exists 1%nat. reflexivity.
    + exists 1%nat. reflexivity.
Qed.


(** A batch that returns has invoked every command. *)
Lemma run_commands_Ok_all (cmds : list cmdline) (w : World) :
  result_of (run_commands cmds w) = Ok tt ->
  invocations (trace_of (run_commands cmds w)) = cmds.
Proof.
  revert w. induction cmds as [|c rest IH]; intros w H.
  - reflexivity.
  - cbn [run_commands] in *.
    destruct (subprocess_run c w) as [[rc|] w1]; [|discriminate].
    destruct (rc =? 0); [|discriminate].
    specialize (IH w1).
    destruct (run_commands rest w1) as [[tr w2] r].
    unfold trace_of, result_of in *. cbn in *. now rewrite IH.
Qed.

(** After a part of the batch that returned, the rest runs in the world
    that part left. *)
Lemma run_commands_app (pre rest : list cmdline) (w : World) :
  result_of (run_commands pre w) = Ok tt ->
  trace_of (run_commands (pre ++ rest) w)
  = trace_of (run_commands pre w)
    ++ trace_of (run_commands rest (world_of (run_commands pre w)))
  /\ result_of (run_commands (pre ++ rest) w)
     = result_of (run_commands rest (world_of (run_commands pre w))).
Proof.
  revert w. induction pre as [|c pre IH]; intros w H.
  - split; reflexivity.
  - cbn [run_commands app] in *.
    destruct (subprocess_run c w) as [[rc|] w1]; [|discriminate].
    destruct (rc =? 0); [|discriminate].
    specialize (IH w1).
    destruct (run_commands pre w1) as [[tr w2] r].
    unfold trace_of, result_of, world_of in *. cbn in *.
    destruct (IH H) as [Ht Hr].
    destruct (run_commands (pre ++ rest) w1) as [[tr' w2'] r'].
    cbn in *. subst. split; reflexivity.
Qed.

(** C4. In a batch, when the commands before one have all exited with
    status zero and that one exits with another status, [run_commands]
    raises [CalledProcessError] for it: the invocations are the commands up
    to and including it, each once, and none of those after it. *)
Theorem run_commands_aborts_batch (pre post : list cmdline) (c : cmdline)
  (w w' : World) (rc : Z) :
  result_of (run_commands pre w) = Ok tt ->
  subprocess_run c (world_of (run_commands pre w)) = (Exited rc, w') ->
  rc <> 0 ->
  result_of (run_commands (pre ++ c :: post) w)
  = Raise (CalledProcessError rc c)
  /\ invocations (trace_of (run_commands (pre ++ c :: post) w)) = pre ++ [c].
Proof.
  intros Hpre Hc Hrc.
  destruct (run_commands_app pre (c :: post) w Hpre) as [Ht Hr].
  rewrite Hr, Ht, invocations_app, (run_commands_Ok_all pre w Hpre).
  cbn [run_commands]. rewrite Hc.
  apply Z.eqb_neq in Hrc. rewrite Hrc.
  split; reflexivity.
Qed.

(** ** Building a batch *)

Lemma build_all_Forall2 {R : Type} (f : R -> result cmdline)
  (rows : list R) (cmds : list cmdline) :
  build_all f rows = Ok cmds ->
  Forall2 (fun row cmd => f row = Ok cmd) rows cmds.
Proof.
  revert cmds. induction rows as [|row rest IH]; cbn; intros cmds H.
  - injection H as <-. constructor.
  - destruct (f row) as [cmd|] eqn:Hrow; [|discriminate].
    destruct (build_all f rest) as [cs|]; [|discriminate].
    cbn in H. injection H as <-. constructor; auto.
Qed.

Lemma build_all_total {R : Type} (f : R -> result cmdline) (rows : list R) :
  (forall row, exists cmd, f row = Ok cmd) ->
  exists cmds, build_all f rows = Ok cmds.
Proof.
  intros Hf. induction rows as [|row rest [cs IH]]; cbn.
  - now exists [].
  - destruct (Hf row) as [cmd ->]. rewrite IH. cbn. eauto.
Qed.

(** A driver whose commands were all built runs them as one batch, in the
    world it reached, and raises what the batch raises. *)
Lemma drive_run {R : Type} (f : string -> string -> R -> result cmdline)
  (manifest : list R) (w : World) (cmds : list cmdline) :
  build_all (f (out_dir w) (temp_dir w)) manifest = Ok cmds ->
  trace_of (drive f manifest w) = trace_of (run_commands cmds (batch_world w))
  /\ result_of (drive f manifest w)
     = (_ <- result_of (run_commands cmds (batch_world w)) ;;
        Ok (out_dir w)).
Proof.
  unfold drive, out_dir, temp_dir, batch_world.
  destruct (new_dirfmt w) as [out w0]. cbn [fst snd].
  destruct (mkdtemp w0) as [td w1]. cbn [fst snd].
  intros ->. destruct (run_commands cmds w1) as [[tr w2] r].
  split; reflexivity.
Qed.

(** A driver one of whose commands cannot be built invokes nothing. *)
Lemma drive_build_raises {R : Type}
  (f : string -> string -> R -> result cmdline)
  (manifest : list R) (w : World) (e : exn) :
  build_all (f (out_dir w) (temp_dir w)) manifest = Raise e ->
  trace_of (drive f manifest w) = []
  /\ result_of (drive f manifest w) = Raise e.
Proof.
  unfold drive, out_dir, temp_dir, batch_world.
  destruct (new_dirfmt w) as [out w0]. cbn [fst snd].
  destruct (mkdtemp w0) as [td w1]. cbn [fst snd].
  intros ->. split; reflexivity.
Qed.

(** ** The commands of the drivers *)

Lemma single_typed_args (p : single_params) (out_path td : string)
  (row : single_row) :
  single_typed p = true -> well_typed (single_args p out_path td row) = true.
Proof.
  unfold single_typed, well_typed. intros H. split_andb.
  destruct row as [id fwd]. cbn.
  repeat match goal with E : _ = true |- _ => rewrite E; clear E end.
  reflexivity.
Qed.

Lemma paired_typed_args (p : paired_params) (out_path td : string)
  (row : paired_row) :
  paired_typed p = true -> well_typed (paired_args p out_path td row) = true.
Proof.
  unfold paired_typed, well_typed. intros H. split_andb.
  destruct row as [[id fwd] rev]. cbn.
  repeat match goal with E : _ = true |- _ => rewrite E; clear E end.
  reflexivity.
Qed.

Lemma In_overwrite_t (a : bbduk_args) (bm bl br : bool) :
  overwrite a = PBool true -> In "overwrite=t" (assembled a bm bl br).
Proof.
  intros E. unfold assembled. apply in_or_app. left.
  unfold core_args. rewrite E. cbn. do 9 right. now left.
Qed.

(** A command of [trim_single]'s batch: its paths, its [overwrite]. *)
Lemma single_cmd_flags (p : single_params) (out_path td : string)
  (row : single_row) (cmd : cmdline) :
  single_cmd p out_path td row = Ok cmd ->
  single_row_command out_path row cmd
  /\ flag_values "overwrite" cmd = ["t"] /\ In "overwrite=t" cmd.
Proof.
  unfold single_cmd, single_row_command. intros H.
  apply build_Ok_inv in H. destruct H as (bm & bl & br & _ & _ & _ & ->).
  destruct (assembled_core_flags (single_args p out_path td row) bm bl br)
    as (_ & Hin & Hout & _ & _ & _ & _ & _ & _ & Hov & _).
  rewrite Hin, Hout, Hov.
  split; [|split]; [| |apply In_overwrite_t]; now destruct row.
Qed.


(** The paths of a command of [trim_paired]'s batch, and its
    [overwrite]. *)
Lemma paired_cmd_paths (p : paired_params) (out_path td : string)
  (id fwd rev : string) (cmd : cmdline) :
  paired_cmd p out_path td (id, fwd, rev) = Ok cmd ->
  flag_values "out" cmd = [path_join out_path (basename fwd)]
  /\ flag_values "out2" cmd = [path_join out_path (basename rev)]
  /\ flag_values "overwrite" cmd = ["t"] /\ In "overwrite=t" cmd.
Proof.
  unfold paired_cmd. intros H.
  apply build_Ok_inv in H. destruct H as (bm & bl & br & _ & _ & _ & ->).
  destruct (assembled_core_flags (paired_args p out_path td (id, fwd, rev))
              bm bl br)
    as (_ & _ & Hout & _ & _ & _ & _ & _ & _ & Hov & _).
  destruct (assembled_pair_flags (paired_args p out_path td (id, fwd, rev))
              bm bl br) as (_ & Hout2 & _).
  rewrite Hout, Hout2, Hov.
  repeat split. now apply In_overwrite_t.
Qed.


Lemma Forall_firstn_of {A : Type} (P : A -> Prop) (n : nat) (l : list A) :
  Forall P l -> Forall P (firstn n l).
Proof.
  intros H. rewrite <- (firstn_skipn n l) in H.
  now apply Forall_app in H.
Qed.



(** ** The drivers *)



(** C9. Every command the drivers build carries [overwrite=t], once, and
    so does every command they invoke. *)
Theorem drivers_always_overwrite (ps : single_params) (pp : paired_params)
  (ms : list single_row) (mp : list paired_row) (w : World)
  (cs cp : list cmdline) :
  let carries := fun cmd : cmdline =>
    In "overwrite=t" cmd /\ flag_values "overwrite" cmd = ["t"] in
  build_all (single_cmd ps (out_dir w) (temp_dir w)) ms = Ok cs ->
  build_all (paired_cmd pp (out_dir w) (temp_dir w)) mp = Ok cp ->
  Forall carries cs /\ Forall carries cp
  /\ Forall carries (invocations (trace_of (trim_single ms ps w)))
  /\ Forall carries (invocations (trace_of (trim_paired mp pp w))).
Proof.
  intros carries Hs Hp.
  assert (Fs : Forall carries cs).
  { apply build_all_Forall2 in Hs. clear Hp.
    induction Hs as [|row cmd rows cmds Hrow _ IH]; constructor; auto.
    apply single_cmd_flags in Hrow. unfold carries. tauto. }
  assert (Fp : Forall carries cp).
  { apply build_all_Forall2 in Hp. clear Hs Fs.
    induction Hp as [|row cmd rows cmds Hrow _ IH]; constructor; auto.
    destruct row as [[id fwd] rev].
    apply paired_cmd_paths in Hrow. unfold carries. tauto. }
  repeat split; trivial.
  - destruct (drive_run (single_cmd ps) ms w Hs) as [Htr _].
    fold (trim_single ms ps) in Htr. rewrite Htr.
    destruct (run_commands_prefix cs (batch_world w)) as [n ->].
    now apply Forall_firstn_of.
  - destruct (drive_run (paired_cmd pp) mp w Hp) as [Htr _].
    fold (trim_paired mp pp) in Htr. rewrite Htr.
    destruct (run_commands_prefix cp (batch_world w)) as [n ->].
    now apply Forall_firstn_of.
Qed.


(** ** More on running a batch *)

(** X5. The trace of [run_commands] is, for each command it invokes and in
    that order, the two prints that announce the command followed by its
    invocation: nothing is invoked unannounced and nothing else is
    printed. *)
Theorem run_commands_announces (cmds : list cmdline) (w : World) :
  trace_of (run_commands cmds w)
  = flat_map announced (invocations (trace_of (run_commands cmds w))).
Proof.
  revert w. induction cmds as [|c rest IH]; intros w; [reflexivity|].
  cbn [run_commands].
  destruct (subprocess_run c w) as [[rc|] w1]; [|reflexivity].
  destruct (rc =? 0); [|reflexivity].
  specialize (IH w1). destruct (run_commands rest w1) as [[tr w2] r].
  unfold trace_of in *. cbn [fst] in *.
  change (invocations (_ ++ Subprocess c :: tr)) with (c :: invocations tr).
  cbn [flat_map]. rewrite <- IH. reflexivity.
Qed.

(** How a batch ends when it raises: for the command it invoked last,
    which could not be started or exited with another status than zero. *)
Lemma run_commands_raises (cmds : list cmdline) (w : World) (e : exn) :
  result_of (run_commands cmds w) = Raise e ->
  exists pre c,
    invocations (trace_of (run_commands cmds w)) = pre ++ [c]
    /\ (e = OSError
        \/ exists rc, rc <> 0 /\ e = CalledProcessError rc c).
Proof.
  revert w. induction cmds as [|c rest IH]; intros w; [discriminate|].
  cbn [run_commands].
  destruct (subprocess_run c w) as [[rc|] w1].
  - destruct (Z.eqb_spec rc 0) as [->|Hrc].
    + specialize (IH w1). destruct (run_commands rest w1) as [[tr w2] r].
      unfold trace_of, result_of in *. cbn [fst snd] in *.
      intros H. destruct (IH H) as (pre & c' & Hi & He).
      exists (c :: pre), c'. split; [|exact He].
      change (invocations (_ ++ Subprocess c :: tr))
        with (c :: invocations tr).
      now rewrite Hi.
    + intros [= <-]. exists [], c. split; [reflexivity|]. right. eauto.
  - intros [= <-]. exists [], c. split; [reflexivity|]. now left.
Qed.



(** ** More on the drivers *)

Lemma single_batch_total (p : single_params) (out_path td : string)
  (m : list single_row) :
  single_typed p = true ->
  exists cmds, build_all (single_cmd p out_path td) m = Ok cmds.
Proof.
  intros Ht. apply build_all_total. intros row. unfold single_cmd.
  rewrite (build_typed _ (single_typed_args p _ _ row Ht)). eauto.
Qed.

Lemma paired_batch_total (p : paired_params) (out_path td : string)
  (m : list paired_row) :
  paired_typed p = true ->
  exists cmds, build_all (paired_cmd p out_path td) m = Ok cmds.
Proof.
  intros Ht. apply build_all_total. intros row. unfold paired_cmd.
  rewrite (build_typed _ (paired_typed_args p _ _ row Ht)). eauto.
Qed.

(** X7. With typed parameters the command [trim_single] builds for a row
    is this one: the row's file as input, the output directory joined with
    its base name as output, every parameter formatted as given,
    [overwrite=t], no pair flag, and the statistics file in the temporary
    directory under the input's base name followed by
    [.bbduk.stats.txt]. *)
Theorem single_cmd_command_line (p : single_params) (out_path td : string)
  (id fwd : string) :
  single_typed p = true ->
  let stats := path_join td (basename fwd +++ ".bbduk.stats.txt") in
  single_cmd p out_path td (id, fwd) =
    Ok ([ "bbduk.sh";
          "in=" +++ fwd;
          "out=" +++ path_join out_path (basename fwd);
          "k=" +++ format (s_k p);
          "ktrim=" +++ format (s_ktrim p);
          "qtrim=" +++ format (s_qtrim p);
          "trimq=" +++ format (s_trimq p);
          "minlength=" +++ format (s_minlength p);
          "threads=" +++ format (s_threads p);
          "overwrite=t";
          "ziplevel=2";
          "ordered=f" ]
        ++ when (positive (s_mink p)) ("mink=" +++ format (s_mink p))
        ++ when (nonempty (s_ref p)) ("ref=" +++ format (s_ref p))
        ++ when (nonempty (s_literal p))
             ("literal=" +++ format (s_literal p))
        ++ when (positive (s_forcetrimleft p))
             ("forcetrimleft=" +++ format (s_forcetrimleft p))
        ++ when (positive (s_forcetrimright p))
             ("forcetrimright=" +++ format (s_forcetrimright p))
        ++ when (nonempty (s_kmask p)) ("kmask=" +++ format (s_kmask p))
        ++ when (negb (stats =? "")%string) ("stats=" +++ stats)).
Proof.
  intros Ht stats. unfold single_cmd.
  rewrite (build_typed_explicit _
             (single_typed_args p out_path td (id, fwd) Ht)).
  reflexivity.
Qed.

(** X8. With typed parameters the command [trim_paired] builds for a row
    is this one: both files of the row as inputs, the output directory
    joined with their base names as outputs, [tpe=t] when [tpe] is [True],
    [tbo=t] and [minoverlap=] when [tbo] is [True], and the statistics file
    named after the forward read alone. *)
Theorem paired_cmd_command_line (p : paired_params) (out_path td : string)
  (id fwd rev : string) :
  paired_typed p = true ->
  let stats := path_join td (basename fwd +++ ".bbduk.stats.txt") in
  paired_cmd p out_path td (id, fwd, rev) =
    Ok ([ "bbduk.sh";
          "in=" +++ fwd;
          "out=" +++ path_join out_path (basename fwd);
          "k=" +++ format (p_k p);
          "ktrim=" +++ format (p_ktrim p);
          "qtrim=" +++ format (p_qtrim p);
          "trimq=" +++ format (p_trimq p);
          "minlength=" +++ format (p_minlength p);
          "threads=" +++ format (p_threads p);
          "overwrite=t";
          "ziplevel=2";
          "ordered=f" ]
        ++ when (positive (p_mink p)) ("mink=" +++ format (p_mink p))
        ++ [ "in2=" +++ rev;
             "out2=" +++ path_join out_path (basename rev) ]
        ++ when (is_True (p_tpe p)) "tpe=t"
        ++ (if is_True (p_tbo p)
            then ["tbo=t"; "minoverlap=" +++ format (p_minoverlap p)]
            else [])
        ++ when (nonempty (p_ref p)) ("ref=" +++ format (p_ref p))
        ++ when (nonempty (p_literal p))
             ("literal=" +++ format (p_literal p))
        ++ when (positive (p_forcetrimleft p))
             ("forcetrimleft=" +++ format (p_forcetrimleft p))
        ++ when (positive (p_forcetrimright p))
             ("forcetrimright=" +++ format (p_forcetrimright p))
        ++ when (nonempty (p_kmask p)) ("kmask=" +++ format (p_kmask p))
        ++ when (negb (stats =? "")%string) ("stats=" +++ stats)).
Proof.
  intros Ht stats. unfold paired_cmd.
  rewrite (build_typed_explicit _
             (paired_typed_args p out_path td (id, fwd, rev) Ht)).
  cbn [paired_args in1 out1 in2 out2 threads k ktrim mink qtrim trimq
       minlength tpe tbo minoverlap ref literal forcetrimleft
       forcetrimright kmask overwrite stats_fp is_not_None andb].
  rewrite <- !app_assoc. reflexivity.
Qed.

(** How a driver whose commands were all built ends. *)
Lemma drive_ends {R : Type} (f : string -> string -> R -> result cmdline)
  (manifest : list R) (w : World) (cmds : list cmdline) :
  build_all (f (out_dir w) (temp_dir w)) manifest = Ok cmds ->
  (forall v, result_of (drive f manifest w) = Ok v ->
             v = out_dir w
             /\ List.length (invocations (trace_of (drive f manifest w)))
                = List.length manifest)
  /\ (forall e, result_of (drive f manifest w) = Raise e ->
                exists pre c,
                  invocations (trace_of (drive f manifest w)) = pre ++ [c]
                  /\ (e = OSError
                      \/ exists rc, rc <> 0 /\ e = CalledProcessError rc c)).
Proof.
  intros Hc. destruct (drive_run f manifest w Hc) as [-> ->].
  pose proof (Forall2_length (build_all_Forall2 _ _ Hc)) as Hlen.
  destruct (result_of (run_commands cmds (batch_world w))) as [[]|e'] eqn:E;
    cbn [bind]; split; try discriminate.
  - intros v [= <-]. split; [reflexivity|].
    now rewrite (run_commands_Ok_all _ _ E).
  - intros e [= <-]. now apply run_commands_raises.
Qed.


(** X10. [trim_single] invokes nothing before every command is built: on
    an empty manifest it returns the output directory with an empty trace,
    whatever the parameters; on a manifest with a row and a parameter the
    builder cannot compare with [0] ([mink] a string, [forcetrimleft] or
    [forcetrimright] a string that is not empty) it raises [TypeError] with
    an empty trace. *)
Theorem trim_single_builds_first (ms : list single_row) (ps : single_params)
  (w : World) :
  (trace_of (trim_single [] ps w) = []
   /\ result_of (trim_single [] ps w) = Ok (out_dir w))
  /\ (is_str (s_mink ps) || nonempty (s_forcetrimleft ps)
      || nonempty (s_forcetrimright ps) = true ->
      ms <> [] ->
      trace_of (trim_single ms ps w) = []
      /\ result_of (trim_single ms ps w) = Raise TypeError).
Proof.
  split.
  - exact (drive_run (single_cmd ps) [] w eq_refl).
  - intros Hbad Hne. destruct ms as [|[id fwd] rest]; [now contradiction Hne|].
    apply (drive_build_raises (single_cmd ps)).
    cbn [build_all]. unfold single_cmd at 1.
    destruct (builder_raises
                (single_args ps (out_dir w) (temp_dir w) (id, fwd)))
      as [_ [_ Hraise]].
    now rewrite (Hraise Hbad).
Qed.


End DriverFacts.

Section PluginFacts.
Context {FM : PyFloat} {os : OS}.

(** ** What the registered types admit *)

Lemma at_least_iff (z lo : Z) :
  match z ?= lo with Gt | Eq => true | Lt => false end = true <-> lo <= z.
Proof.
  destruct (Z.compare_spec z lo); cbn; split;
    (discriminate || lia || trivial).
Qed.

Lemma int_range_from (lo : Z) (v : pyval) :
  is_element (Int %% Range (Some lo) None true false) v = true
  <-> exists z, v = PInt z /\ lo <= z.
Proof.
  destruct v as [| b | z | f | s]; cbn;
    try (split; [discriminate | intros (z' & E & _); discriminate E]).
  unfold ge; cbn. rewrite andb_true_r, at_least_iff. split.
  - intros Hle. now exists z.
  - now intros (z' & [= <-] & Hle).
Qed.

Lemma real_range_from (lo : Z) (v : pyval) :
  is_element (Float %% Range (Some lo) None true false) v = true
  <-> (exists z, v = PInt z /\ lo <= z)
      \/ (exists f, v = PFloat f
                    /\ (float_compare_int f lo = Some Eq
                        \/ float_compare_int f lo = Some Gt)).
Proof.
  destruct v as [| b | z | f | s]; cbn;
    try (split; [discriminate
                | intros [(z' & E & _)|(f' & E & _)]; discriminate E]).
  - unfold ge; cbn. rewrite andb_true_r, at_least_iff. split.
    + intros Hle. left. now exists z.
    + intros [(z' & [= <-] & Hle)|(f' & E & _)]; [trivial|discriminate E].
  - rewrite andb_true_r. unfold ge; cbn. split.
    + intros H. right. exists f. split; trivial.
      destruct (float_compare_int f lo) as [[| |]|];
        (discriminate H || auto).
    + intros [(z' & E & _)|(f' & [= <-] & [-> | ->])];
        [discriminate E | reflexivity | reflexivity].
Qed.

Lemma choices_spec (choices : list string) (v : pyval) :
  is_element (Str %% Choices choices) v = true
  <-> exists s, v = PStr s /\ In s choices.
Proof.
  destruct v as [| b | z | f | s]; cbn;
    try (split; [discriminate | intros (s' & E & _); discriminate E]).
  rewrite existsb_exists. split.
  - intros (c & Hin & E). apply String.eqb_eq in E. subst c. eauto.
  - intros (s' & [= <-] & Hin). exists s. split; trivial.
    apply String.eqb_refl.
Qed.

(** One argument the registration does not accept fails the whole check. *)
Lemma validate_rejects (m : registered) (kwargs : list (string * pyval))
  (name : string) (v : pyval) :
  In (name, v) kwargs -> accepts m name v = false -> validate m kwargs = false.
Proof.
  intros Hin Hacc. unfold validate.
  destruct (forallb _ kwargs) eqn:E; trivial.
  rewrite forallb_forall in E. specialize (E _ Hin). cbn in E. congruence.
Qed.

(** Unfolds the check of one named parameter of a registered method down
    to membership in its declared type. *)
Ltac declared :=
  intros v; unfold accepts; cbn -[is_element];
  rewrite ?andb_false_r, ?andb_true_r, ?orb_false_r.

(** C8. Both registrations restrict [ktrim] to ["f"], ["r"], ["l"] and
    [qtrim] to ["rl"], ["f"], ["r"], ["l"], ["w"], and bound [k] and
    [minlength] from 1 and [mink], [trimq], [forcetrimleft] and
    [forcetrimright] from 0 ([mink] may be left [None]; a float [trimq] must
    equal or exceed 0, which a NaN does not); [trim_paired] bounds
    [minoverlap] from 1 and
    [trim_single] has no such parameter.  A call with an argument outside
    these is rejected with nothing done: no trace, the world as it was. *)
Theorem registered_constraints :
  let constrained := fun m : registered =>
    (forall v, accepts m "ktrim" v = true
               <-> exists s, v = PStr s /\ In s ["f"; "r"; "l"])
    /\ (forall v, accepts m "qtrim" v = true
                  <-> exists s, v = PStr s /\ In s ["rl"; "f"; "r"; "l"; "w"])
    /\ (forall v, accepts m "k" v = true <-> exists z, v = PInt z /\ 1 <= z)
    /\ (forall v, accepts m "mink" v = true
                  <-> v = PNone \/ exists z, v = PInt z /\ 0 <= z)
    /\ (forall v, accepts m "trimq" v = true
                  <-> (exists z, v = PInt z /\ 0 <= z)
                      \/ (exists f, v = PFloat f
                                    /\ (float_compare_int f 0 = Some Eq
                                        \/ float_compare_int f 0
                                           = Some Gt)))
    /\ (forall v, accepts m "minlength" v = true
                  <-> exists z, v = PInt z /\ 1 <= z)
    /\ (forall v, accepts m "forcetrimleft" v = true
                  <-> exists z, v = PInt z /\ 0 <= z)
    /\ (forall v, accepts m "forcetrimright" v = true
                  <-> exists z, v = PInt z /\ 0 <= z) in
  constrained trim_single_method
  /\ constrained trim_paired_method
  /\ (forall v, accepts trim_paired_method "minoverlap" v = true
                <-> exists z, v = PInt z /\ 1 <= z)
  /\ (forall v, accepts trim_single_method "minoverlap" v = false)
  /\ (forall manifest kwargs name v w,
         In (name, v) kwargs -> accepts trim_single_method name v = false ->
         call_trim_single manifest kwargs w = ([], w, Raise TypeError))
  /\ (forall manifest kwargs name v w,
         In (name, v) kwargs -> accepts trim_paired_method name v = false ->
         call_trim_paired manifest kwargs w = ([], w, Raise TypeError)).
Proof.
  assert (Hmink : forall T v,
             T v = true <-> (exists z, v = PInt z /\ 0 <= z) ->
             (T v || negb (is_not_None v) = true
              <-> v = PNone \/ exists z, v = PInt z /\ 0 <= z)).
  { intros T v HT. rewrite orb_true_iff, HT. split.
    - intros [H|H]; [now right|]. left. now destruct v.
    - intros [->|H]; [now right | now left]. }
  cbv zeta. repeat match goal with |- _ /\ _ => split end;
    try (declared;
         first [ apply choices_spec | apply int_range_from
               | apply real_range_from
               | apply Hmink, int_range_from ]);
    try (declared; now rewrite ?orb_false_r).
  - intros manifest kwargs name v w Hin Hacc. unfold call_trim_single.
    now rewrite (validate_rejects _ _ _ _ Hin Hacc).
  - intros manifest kwargs name v w Hin Hacc. unfold call_trim_paired.
    now rewrite (validate_rejects _ _ _ _ Hin Hacc).
Qed.

(** ** From the registration to the parameter types *)

(** In a call that passed the check, a parameter holds its default or a
    value the registration accepts. *)
Lemma argument_accepted (m : registered) (kwargs : list (string * pyval))
  (name : string) (default : pyval) :
  validate m kwargs = true ->
  argument kwargs name default = default
  \/ accepts m name (argument kwargs name default) = true.
Proof.
  intros Hv. unfold argument, lookup.
  destruct (find _ kwargs) as [[n v]|] eqn:E; cbn; [right | now left].
  apply find_some in E. destruct E as [Hin Hn]. cbn in Hn.
  apply String.eqb_eq in Hn. subst n.
  unfold validate in Hv. rewrite forallb_forall in Hv.
  exact (Hv _ Hin).
Qed.

(** Reads the type of a parameter off its default or off what the
    registration accepts for it. *)
Ltac typed_argument m kwargs name default :=
  destruct (argument_accepted m kwargs name default) as [-> | Hacc];
  [ assumption
  | reflexivity
  | revert Hacc; generalize (argument kwargs name default);
    let v := fresh "v" in
    intros v; unfold accepts; cbn -[Z.leb];
    destruct v; cbn -[Z.leb]; congruence ].

(** The parameters a checked call binds have the types of [trim_single]:
    the builder then raises for no row. *)
Lemma validated_single_typed (kwargs : list (string * pyval)) :
  validate trim_single_method kwargs = true ->
  single_typed (bind_single kwargs) = true.
Proof.
  intros Hv. unfold single_typed, bind_single.
  cbn [s_k s_ktrim s_mink s_qtrim s_trimq s_minlength s_ref s_literal
       s_forcetrimleft s_forcetrimright s_kmask s_threads].
  repeat (apply andb_true_intro; split);
    match goal with
    | |- context [argument kwargs ?name ?default] =>
        typed_argument trim_single_method kwargs name default
    end.
Qed.

Lemma validated_paired_typed (kwargs : list (string * pyval)) :
  validate trim_paired_method kwargs = true ->
  paired_typed (bind_paired kwargs) = true.
Proof.
  intros Hv. unfold paired_typed, bind_paired.
  cbn [p_k p_ktrim p_mink p_qtrim p_trimq p_minlength p_tpe p_tbo
       p_minoverlap p_ref p_literal p_forcetrimleft p_forcetrimright
       p_kmask p_threads].
  repeat (apply andb_true_intro; split);
    match goal with
    | |- context [argument kwargs ?name ?default] =>
        typed_argument trim_paired_method kwargs name default
    end.
Qed.

(** ** More on the registration *)

(** X12. Each registration names exactly the keyword parameters of its
    driver, in the order of the signature, and every default of the
    signature is a value the registration accepts for its parameter,
    provided the float [6.0] compares greater than [0]. *)
Theorem defaults_are_accepted :
  float_compare_int (float_of_int 6) 0 = Some Gt ->
  let consistent := fun m : registered =>
    map fst (parameters m) = map fst (signature m)
    /\ Forall (fun kv => accepts m (fst kv) (snd kv) = true) (signature m) in
  consistent trim_single_method /\ consistent trim_paired_method.
Proof.
  intros H6 consistent.
  assert (Htrimq : forall m,
             lookup "trimq" (parameters m)
             = Some (Float %% Range (Some 0) None true false) ->
             accepts m "trimq" (PFloat (float_of_int 6)) = true).
  { intros m Hm. unfold accepts. rewrite Hm. cbn. unfold ge. cbn.
    now rewrite H6. }
  split; (split; [reflexivity|]);
    repeat (constructor; [first [reflexivity | now apply Htrimq]|]);
    constructor.
Qed.

(** A driver called with typed parameters raises no [TypeError]. *)
Lemma drive_no_TypeError {R : Type}
  (f : string -> string -> R -> result cmdline)
  (manifest : list R) (w : World) (cmds : list cmdline) :
  build_all (f (out_dir w) (temp_dir w)) manifest = Ok cmds ->
  result_of (drive f manifest w) <> Raise TypeError.
Proof.
  intros Hc E. destruct (drive_ends f manifest w Hc) as [_ Hraise].
  destruct (Hraise _ E) as (pre & c & _ & [He | (rc & _ & He)]);
    discriminate He.
Qed.

(** X13. A call of a registered method ends in [TypeError] exactly when the
    check of its arguments rejects it: the arguments that pass have the
    types the builder needs, so every command is built, and the subprocesses
    raise other errors. *)
Theorem checked_call_TypeError (ms : list single_row) (mp : list paired_row)
  (kwargs : list (string * pyval)) (w : World) :
  (result_of (call_trim_single ms kwargs w) = Raise TypeError
   <-> validate trim_single_method kwargs = false)
  /\ (result_of (call_trim_paired mp kwargs w) = Raise TypeError
      <-> validate trim_paired_method kwargs = false).
Proof.
  split.
  - unfold call_trim_single.
    destruct (validate trim_single_method kwargs) eqn:Hv;
      split; trivial; try discriminate.
    intros E. exfalso.
    destruct (single_batch_total (bind_single kwargs) (out_dir w)
                (temp_dir w) ms (validated_single_typed kwargs Hv))
      as [cmds Hc].
    exact (drive_no_TypeError (single_cmd (bind_single kwargs)) ms w Hc E).
  - unfold call_trim_paired.
    destruct (validate trim_paired_method kwargs) eqn:Hv;
      split; trivial; try discriminate.
    intros E. exfalso.
    destruct (paired_batch_total (bind_paired kwargs) (out_dir w)
                (temp_dir w) mp (validated_paired_typed kwargs Hv))
      as [cmds Hc].
    exact (drive_no_TypeError (paired_cmd (bind_paired kwargs)) mp w Hc E).
Qed.

End PluginFacts.

(** * The theorems at concrete inputs *)

Section Examples.
#[local] Existing Instance integral_floats.
#[local] Existing Instance scripted.

(** The builder raises on a value outside the parameter types: [mink]
    given as text is compared with [0]. *)
Lemma build_untyped_raises :
  well_typed args_mink_text = false
  /\ _build_bbduk_cmd args_mink_text = Raise TypeError.
Proof. split; reflexivity. Qed.

(** [mink=0] leaves the flag out, [mink=5] puts [mink=5]. *)
Lemma build_mink_examples :
  _build_bbduk_cmd args_negative_trim = Ok cmd_negative_trim
  /\ mink args_negative_trim = PInt 0
  /\ flag_values "mink" cmd_negative_trim = []
  /\ _build_bbduk_cmd args_full = Ok cmd_full
  /\ mink args_full = PInt 5
  /\ In "mink=5" cmd_full.
Proof. repeat split; cbn; tauto. Qed.

Lemma build_core_flags_once_witness :
  _build_bbduk_cmd args_full = Ok cmd_full
  /\ (exists rest,
         cmd_full
         = [ "bbduk.sh"; "in=/data/s1_R1.fastq.gz";
             "out=/out/s1_R1.fastq.gz"; "k=23"; "ktrim=r"; "qtrim=rl";
             "trimq=10.0"; "minlength=30"; "threads=4"; "overwrite=t";
             "ziplevel=2"; "ordered=f" ] ++ rest
         /\ ~ In "bbduk.sh" rest)
  /\ flag_values "in" cmd_full = ["/data/s1_R1.fastq.gz"]
  /\ flag_values "out" cmd_full = ["/out/s1_R1.fastq.gz"]
  /\ flag_values "k" cmd_full = ["23"]
  /\ flag_values "ktrim" cmd_full = ["r"]
  /\ flag_values "qtrim" cmd_full = ["rl"]
  /\ flag_values "trimq" cmd_full = ["10.0"]
  /\ flag_values "minlength" cmd_full = ["30"]
  /\ flag_values "threads" cmd_full = ["4"]
  /\ flag_values "overwrite" cmd_full = ["t"]
  /\ flag_values "ziplevel" cmd_full = ["2"]
  /\ flag_values "ordered" cmd_full = ["f"].
Proof.
  split; [reflexivity|].
  exact (build_core_flags_once args_full (cmd:=cmd_full) eq_refl).
Defined.

Lemma build_total_witness :
  well_typed args_full = true
  /\ exists cmd, _build_bbduk_cmd args_full = Ok cmd.
Proof.
  split; [reflexivity|].
  exact (build_total args_full eq_refl).
Defined.

Lemma build_conditional_flags_witness :
  well_typed args_full = true
  /\ _build_bbduk_cmd args_full = Ok cmd_full
  /\ flag_values "mink" cmd_full = ["5"]
  /\ flag_values "ref" cmd_full = ["adapters"]
  /\ flag_values "literal" cmd_full = ["ACGT"]
  /\ flag_values "forcetrimleft" cmd_full = ["3"]
  /\ flag_values "forcetrimright" cmd_full = ["120"]
  /\ flag_values "kmask" cmd_full = ["lc"]
  /\ flag_values "stats" cmd_full = ["/td/s1_R1.fastq.gz.bbduk.stats.txt"].
Proof.
  split; [reflexivity|]. split; [reflexivity|].
  exact (build_conditional_flags args_full (cmd:=cmd_full) eq_refl eq_refl).
Defined.

(** C1 as stated fails at [forcetrimleft=-1]: the value is not zero and
    the flag does not occur. *)
Lemma build_nonzero_trim_not_emitted :
  well_typed args_negative_trim = true
  /\ _build_bbduk_cmd args_negative_trim = Ok cmd_negative_trim
  /\ forcetrimleft args_negative_trim = PInt (-1)
  /\ flag_values "forcetrimleft" cmd_negative_trim = []
  /\ ~ (In "forcetrimleft=-1" cmd_negative_trim <-> -1 <> 0).
Proof.
  repeat split; try reflexivity.
  intros [_ H]. assert (Hin := H ltac:(lia)). cbn in Hin.
  repeat (destruct Hin as [Hin|Hin]; [discriminate Hin|]). exact Hin.
Qed.

Lemma build_pair_flags_need_reverse_witness :
  _build_bbduk_cmd args_negative_trim = Ok cmd_negative_trim
  /\ in2 args_negative_trim = PNone
  /\ flag_values "in2" cmd_negative_trim = []
  /\ flag_values "out2" cmd_negative_trim = []
  /\ flag_values "tpe" cmd_negative_trim = []
  /\ flag_values "tbo" cmd_negative_trim = []
  /\ flag_values "minoverlap" cmd_negative_trim = [].
Proof.
  split; [reflexivity|]. split; [reflexivity|].
  exact (proj1 (build_pair_flags_need_reverse args_negative_trim
                  (cmd:=cmd_negative_trim) eq_refl) eq_refl).
Defined.

Lemma run_commands_aborts_batch_witness :
  result_of (run_commands (firstn 2 five_cmds) third_fails) = Ok tt
  /\ subprocess_run ["bbduk.sh"; "in=s3.fq"; "out=o/s3.fq"]
       (world_of (run_commands (firstn 2 five_cmds) third_fails))
     = (Exited 3, [])
  /\ 3 <> 0
  /\ result_of (run_commands five_cmds third_fails)
     = Raise (CalledProcessError 3 ["bbduk.sh"; "in=s3.fq"; "out=o/s3.fq"])
  /\ invocations (trace_of (run_commands five_cmds third_fails))
     = firstn 3 five_cmds.
Proof.
  split; [reflexivity|]. split; [reflexivity|]. split; [lia|].
  exact (@run_commands_aborts_batch scripted
           (firstn 2 five_cmds) (skipn 3 five_cmds)
           ["bbduk.sh"; "in=s3.fq"; "out=o/s3.fq"]
           third_fails [] 3 eq_refl eq_refl ltac:(lia)).
Defined.





Lemma drivers_always_overwrite_witness :
  build_all (single_cmd single_defaults out0 td0) manifest_single
  = Ok cmds_single
  /\ build_all (paired_cmd paired_both_on out0 td0) manifest_paired
     = Ok cmds_paired
  /\ Forall (fun cmd => In "overwrite=t" cmd
                        /\ flag_values "overwrite" cmd = ["t"])
       (cmds_single ++ cmds_paired).
Proof.
  split; [reflexivity|]. split; [reflexivity|].
  destruct (@drivers_always_overwrite integral_floats scripted
              single_defaults paired_both_on
              manifest_single manifest_paired none_fails
              cmds_single cmds_paired eq_refl eq_refl)
    as (Hs & Hp & _).
  apply Forall_app. split; assumption.
Defined.


Lemma registered_constraints_witness :
  In ("k", PInt 0) [("ktrim", PStr "r"); ("k", PInt 0)]
  /\ accepts trim_single_method "k" (PInt 0) = false
  /\ call_trim_single manifest_single [("ktrim", PStr "r"); ("k", PInt 0)]
       none_fails
     = ([], none_fails, Raise TypeError)
  /\ In ("qtrim", PStr "x") [("qtrim", PStr "x")]
  /\ accepts trim_paired_method "qtrim" (PStr "x") = false
  /\ call_trim_paired manifest_paired [("qtrim", PStr "x")] none_fails
     = ([], none_fails, Raise TypeError).
Proof.
  destruct (@registered_constraints integral_floats scripted)
    as (_ & _ & _ & _ & Hs & Hp).
  split; [right; now left|]. split; [reflexivity|].
  split.
  { exact (Hs manifest_single [("ktrim", PStr "r"); ("k", PInt 0)]
             "k" (PInt 0) none_fails
             (or_intror (or_introl eq_refl)) eq_refl). }
  split; [now left|]. split; [reflexivity|].
  exact (Hp manifest_paired [("qtrim", PStr "x")] "qtrim" (PStr "x")
           none_fails (or_introl eq_refl) eq_refl).
Defined.

Lemma build_argument_order_witness :
  well_typed args_full = true
  /\ _build_bbduk_cmd args_full = Ok cmd_full.
Proof.
  split; [reflexivity|].
  exact (@build_argument_order integral_floats args_full eq_refl).
Defined.

Lemma build_known_flags_only_witness :
  _build_bbduk_cmd args_full = Ok cmd_full
  /\ exists rest,
       cmd_full = "bbduk.sh" :: rest
       /\ Forall (fun arg => exists name v,
                      In name flag_vocabulary /\ arg = name +++ "=" +++ v)
            rest.
Proof.
  split; [reflexivity|].
  exact (@build_known_flags_only integral_floats args_full cmd_full eq_refl).
Defined.

Lemma build_pair_block_witness :
  _build_bbduk_cmd args_half_pair = Ok cmd_half_pair
  /\ in2 args_half_pair = PStr "/data/s1_R2.fastq.gz"
  /\ out2 args_half_pair = PNone
  /\ flag_values "in2" cmd_half_pair = []
  /\ flag_values "out2" cmd_half_pair = []
  /\ flag_values "tpe" cmd_half_pair = []
  /\ flag_values "tbo" cmd_half_pair = []
  /\ flag_values "minoverlap" cmd_half_pair = []
  /\ (flag_values "minoverlap" cmd_half_pair = []
      <-> flag_values "tbo" cmd_half_pair = []).
Proof.
  split; [reflexivity|]. split; [reflexivity|]. split; [reflexivity|].
  exact (@build_pair_block integral_floats args_half_pair cmd_half_pair
           eq_refl).
Defined.

Lemma single_cmd_command_line_witness :
  single_typed single_defaults = true
  /\ single_cmd single_defaults out0 td0 ("s1", "/data/s1_R1.fastq.gz")
     = Ok [ "bbduk.sh"; "in=/data/s1_R1.fastq.gz";
            "out=/tmp/q2-out/s1_R1.fastq.gz"; "k=27"; "ktrim=f"; "qtrim=f";
            "trimq=6.0"; "minlength=10"; "threads=1"; "overwrite=t";
            "ziplevel=2"; "ordered=f";
            "stats=/tmp/tmpbbduk/s1_R1.fastq.gz.bbduk.stats.txt" ].
Proof.
  split; [reflexivity|].
  exact (@single_cmd_command_line integral_floats scripted single_defaults
           out0 td0 "s1" "/data/s1_R1.fastq.gz" eq_refl).
Defined.

Lemma paired_cmd_command_line_witness :
  paired_typed paired_both_on = true
  /\ paired_cmd paired_both_on out0 td0
       ("s1", "/data/s1_R1.fastq.gz", "/data/s1_R2.fastq.gz")
     = Ok [ "bbduk.sh"; "in=/data/s1_R1.fastq.gz";
            "out=/tmp/q2-out/s1_R1.fastq.gz"; "k=27"; "ktrim=r"; "qtrim=f";
            "trimq=6.0"; "minlength=10"; "threads=2"; "overwrite=t";
            "ziplevel=2"; "ordered=f"; "mink=11";
            "in2=/data/s1_R2.fastq.gz"; "out2=/tmp/q2-out/s1_R2.fastq.gz";
            "tpe=t"; "tbo=t"; "minoverlap=14"; "ref=adapters";
            "stats=/tmp/tmpbbduk/s1_R1.fastq.gz.bbduk.stats.txt" ].
Proof.
  split; [reflexivity|].
  exact (@paired_cmd_command_line integral_floats scripted paired_both_on
           out0 td0 "s1" "/data/s1_R1.fastq.gz" "/data/s1_R2.fastq.gz"
           eq_refl).
Defined.


Lemma trim_single_builds_first_witness :
  is_str (s_mink single_text_mink)
  || nonempty (s_forcetrimleft single_text_mink)
  || nonempty (s_forcetrimright single_text_mink) = true
  /\ manifest_single <> []
  /\ trace_of (trim_single manifest_single single_text_mink none_fails) = []
  /\ result_of (trim_single manifest_single single_text_mink none_fails)
     = Raise TypeError.
Proof.
  split; [reflexivity|]. split; [discriminate|].
  exact (proj2 (@trim_single_builds_first integral_floats scripted
                  manifest_single single_text_mink none_fails)
           eq_refl ltac:(discriminate)).
Defined.


Lemma defaults_are_accepted_witness :
  float_compare_int (float_of_int 6) 0 = Some Gt
  /\ map fst (parameters trim_paired_method)
     = map fst (signature trim_paired_method)
  /\ Forall (fun kv => accepts trim_paired_method (fst kv) (snd kv) = true)
       (signature trim_paired_method).
Proof.
  split; [reflexivity|].
  exact (proj2 (@defaults_are_accepted integral_floats eq_refl)).
Defined.

(** A NaN is no [trimq] for the registration: it is not at least 0, and a
    call that gives it is rejected before anything is done. *)
Lemma nan_trimq_rejected :
  @accepts floats_with_nan trim_single_method "trimq"
    (@PFloat floats_with_nan None) = false
  /\ @accepts floats_with_nan trim_paired_method "trimq"
       (@PFloat floats_with_nan None) = false
  /\ @call_trim_single floats_with_nan scripted manifest_single
       [("trimq", @PFloat floats_with_nan None)] none_fails
     = ([], none_fails, Raise TypeError)
  /\ @accepts floats_with_nan trim_single_method "trimq"
       (@PFloat floats_with_nan (Some 0)) = true.
Proof. repeat split. Qed.

End Examples.
